(** * EchoBrief frontend: the authenticated HTTP client and the session store

    A shallow embedding of [src/lib/api.ts] (the axios instance [api] with its
    request and response interceptors) and of the [AuthProvider] of
    [src/contexts/AuthContext.tsx], followed by the properties of the
    token-refresh protocol.

    The browser and the backend are the environment: [localStorage],
    [window.location], the React state of the provider and the log of effects
    are fields of an explicit [World]; the backend is an arbitrary function
    from the history of effects and the request put on the wire to a reply.
    Promises are tasks: functions from a world to a settled value and a new
    world. *)

From stdpp Require Import base strings gmap list numbers.

Set Warnings "-register-all".


(** ** JavaScript values that cross the client *)

(** A parsed JSON payload.  A number is carried as its JavaScript rendering
    (the client never computes with payload numbers); the fields of an object
    are listed in source order. *)
Inductive Json :=
| JNull
| JBool (b : bool)
| JNum (repr : string)
| JStr (s : string)
| JArr (items : list Json)
| JObj (fields : list (string * Json)).

(** A JavaScript value as the client sees one: [None] is [undefined]. *)
Abbreviation JsValue := (option Json).

(** [JSON.parse] keeps the last of several members with the same name. *)
Fixpoint own_property (name : string) (fields : list (string * Json)) : JsValue :=
  match fields with
  | [] => None
  | (k, v) :: rest =>
      match own_property name rest with
      | Some later => Some later
      | None => if decide (k = name) then Some v else None
      end
  end.

(** [String(v)], which both a template literal and [localStorage.setItem]
    apply to a value that is not a string already. *)
Fixpoint JsonToString (v : Json) : string :=
  match v with
  | JNull => "null"
  | JBool true => "true"
  | JBool false => "false"
  | JNum repr => repr
  | JStr s => s
  | JArr items =>
      String.concat ","
        (map (fun x => match x with JNull => "" | _ => JsonToString x end) items)
  | JObj _ => "[object Object]"
  end.

Definition ToString (v : JsValue) : string :=
  match v with
  | None => "undefined"
  | Some j => JsonToString j
  end.

(** Truthiness of a [string | null], the result of [localStorage.getItem]:
    [null] and the empty string are falsy. *)
Definition truthy (v : option string) : bool :=
  match v with
  | Some s => negb (String.eqb s "")
  | None => false
  end.

(** ** Requests, responses and errors *)

(** The request descriptor ([AxiosRequestConfig]) with the one property the
    response interceptor adds to it, [_retry] ([undefined] reads as [false]). *)
Record Config := {
  method : string;
  baseURL : option string;
  url : string;
  headers : gmap string string;
  data : JsValue;
  _retry : bool
}.

Definition with_retry (b : bool) (c : Config) : Config :=
  {| method := method c; baseURL := baseURL c; url := url c;
     headers := headers c; data := data c; _retry := b |}.

Definition with_header (name value : string) (c : Config) : Config :=
  {| method := method c; baseURL := baseURL c; url := url c;
     headers := <[name := value]> (headers c); data := data c;
     _retry := _retry c |}.

(** What the backend answered: status line, headers and parsed body.  The
    link from an axios response back to its request ([response.config]) is the
    same object as [error.config] and is kept once, in [AxiosError]. *)
Record Response := {
  status : Z;
  response_headers : gmap string string;
  response_data : Json
}.

(** An error raised by a dispatch: [response] is absent when nothing came
    back (network failure, timeout). *)
Record AxiosError := {
  config : Config;
  response : option Response
}.

(** Whatever a promise can be rejected with here. *)
Inductive Thrown :=
| AxiosErr (e : AxiosError)
| TypeErr (message : string).

(** ** The world *)

(** The two axios clients of [lib/api.ts]: the default export of the library,
    used bare for the refresh call, and the instance made by [axios.create]. *)
Inductive Client := Raw | Api.

(** Effects in the order they happen. *)
Inductive Event :=
| EvRequest (via : Client) (sent : Config)      (* a request put on the wire *)
| EvRetryMarked (request : Config)              (* originalRequest._retry = true *)
| EvNavigate (target : string)                  (* window.location.href = target *)
| EvSetUser (u : JsValue)                       (* setUser(u) *)
| EvSetIsLoading (b : bool)                     (* setIsLoading(b) *)
| EvConsoleError (reason : Thrown).             (* console.error(..., reason) *)

Record World := {
  localStorage : gmap string string;
  href : string;
  user : JsValue;
  isLoading : bool;
  events : list Event
}.

Definition emit_in (ev : Event) (w : World) : World :=
  {| localStorage := localStorage w; href := href w; user := user w;
     isLoading := isLoading w; events := events w ++ [ev] |}.

Definition with_storage (f : gmap string string -> gmap string string) (w : World) : World :=
  {| localStorage := f (localStorage w); href := href w; user := user w;
     isLoading := isLoading w; events := events w |}.

(** What the network gives back for a request. *)
Inductive Wire :=
| NoResponse
| Replied (r : Response).

(** ** Promises as tasks *)

Inductive Settled (A : Type) :=
| Fulfilled (value : A)
| Rejected (reason : Thrown).
Arguments Fulfilled {A} value.
Arguments Rejected {A} reason.

(** A task runs in a world and settles; [None] only ever means that the
    recursion budget of [api_fuel] below was too small. *)
Definition Task (A : Type) : Type := World -> option (Settled A * World).

Definition resolve {A} (a : A) : Task A := fun w => Some (Fulfilled a, w).
Definition reject {A} (e : Thrown) : Task A := fun w => Some (Rejected e, w).
Definition out_of_fuel {A} : Task A := fun _ => None.

(** [p.then(onFulfilled, onRejected)]. *)
Definition then_ {A B} (p : Task A) (onFulfilled : A -> Task B)
    (onRejected : Thrown -> Task B) : Task B :=
  fun w =>
    match p w with
    | None => None
    | Some (Fulfilled a, w') => onFulfilled a w'
    | Some (Rejected e, w') => onRejected e w'
    end.

#[global] Instance task_ret : MRet Task := fun A a => resolve a.
#[global] Instance task_bind : MBind Task := fun A B f p => then_ p f reject.

(** [try { body } catch (e) { handler e }] around awaited work. *)
Definition try_catch {A} (body : Task A) (handler : Thrown -> Task A) : Task A :=
  then_ body resolve handler.

(** *** Primitive effects *)

Definition getItem (key : string) : Task (option string) :=
  fun w => Some (Fulfilled (localStorage w !! key), w).

Definition setItem (key value : string) : Task unit :=
  fun w => Some (Fulfilled tt, with_storage (insert key value) w).

Definition removeItem (key : string) : Task unit :=
  fun w => Some (Fulfilled tt, with_storage (delete key) w).

Definition emit (ev : Event) : Task unit :=
  fun w => Some (Fulfilled tt, emit_in ev w).

(** [window.location.href = target]. *)
Definition navigate (target : string) : Task unit :=
  fun w =>
    Some (Fulfilled tt,
          {| localStorage := localStorage w; href := target; user := user w;
             isLoading := isLoading w;
             events := events w ++ [EvNavigate target] |}).

Definition setUser (u : JsValue) : Task unit :=
  fun w =>
    Some (Fulfilled tt,
          {| localStorage := localStorage w; href := href w; user := u;
             isLoading := isLoading w;
             events := events w ++ [EvSetUser u] |}).

Definition setIsLoading (b : bool) : Task unit :=
  fun w =>
    Some (Fulfilled tt,
          {| localStorage := localStorage w; href := href w; user := user w;
             isLoading := b;
             events := events w ++ [EvSetIsLoading b] |}).

(** [v.name] for the property names the client reads ([data],
    [access_token], [refresh_token]): a [TypeError] on [null] and
    [undefined], the member of an object, [undefined] on anything else. *)
Definition property (v : JsValue) (name : string) : Thrown + JsValue :=
  match v with
  | None =>
      inl (TypeErr ("Cannot read properties of undefined (reading '" +:+ name +:+ "')"))
  | Some JNull =>
      inl (TypeErr ("Cannot read properties of null (reading '" +:+ name +:+ "')"))
  | Some (JObj fields) => inr (own_property name fields)
  | Some _ => inr None
  end.

Definition js_get (v : JsValue) (name : string) : Task JsValue :=
  match property v name with
  | inl e => reject e
  | inr x => resolve x
  end.

(** ** The axios library, as far as [lib/api.ts] relies on it *)

Record Defaults := {
  default_baseURL : option string;
  default_headers : gmap string string
}.

(** A pair of handlers registered with [interceptors.*.use]. *)
Record Interceptor (V : Type) := {
  onFulfilled : V -> Task V;
  onRejected : Thrown -> Task V
}.
Arguments onFulfilled {V} _ _.
Arguments onRejected {V} _ _.

(** An axios instance.  The request interceptors are listed in the order in
    which they run. *)
Record Instance := {
  client : Client;
  defaults : Defaults;
  request_interceptors : list (Interceptor Config);
  response_interceptors : list (Interceptor Response)
}.

(** [mergeConfig(defaults, config)]: the request's own settings win, its
    custom properties ([_retry]) are copied. *)
Definition mergeConfig (d : Defaults) (c : Config) : Config :=
  {| method := method c;
     baseURL := match baseURL c with Some b => Some b | None => default_baseURL d end;
     url := url c;
     headers := headers c ∪ default_headers d;
     data := data c;
     _retry := _retry c |}.

(** The default [validateStatus]. *)
Definition validateStatus (st : Z) : bool := ((200 <=? st) && (st <? 300))%Z.

(** Each interceptor is one more [.then(onFulfilled, onRejected)]. *)
Definition chain {V} (handlers : list (Interceptor V)) (p : Task V) : Task V :=
  foldl (fun q i => then_ q (onFulfilled i) (onRejected i)) p handlers.

(** [settle]: a reply whose status passes [validateStatus] fulfils, anything
    else rejects with an [AxiosError] carrying the request and the reply, if
    any. *)
Definition settle (config : Config) (reply : Wire) : Settled Response :=
  match reply with
  | NoResponse => Rejected (AxiosErr {| config := config; response := None |})
  | Replied r =>
      if validateStatus (status r)
      then Fulfilled r
      else Rejected (AxiosErr {| config := config; response := Some r |})
  end.

Section Backend.

(** The backend: what comes back for a request, given everything that
    happened before it. *)
Variable backend : list Event -> Config -> Wire.

(** The adapter: the request goes on the wire and the reply is settled. *)
Definition dispatchRequest (via : Client) (config : Config) : Task Response :=
  fun w =>
    Some (settle config (backend (events w) config),
          emit_in (EvRequest via config) w).

(** [Axios.prototype.request]. *)
Definition request (inst : Instance) (config : Config) : Task Response :=
  let merged := mergeConfig (defaults inst) config in
  let prepared := chain (request_interceptors inst) (resolve merged) in
  let dispatched := then_ prepared (dispatchRequest (client inst)) reject in
  chain (response_interceptors inst) dispatched.

(** The default export of the library: nothing is registered on it in this
    code base, and it has no base URL. *)
Definition axios : Instance :=
  {| client := Raw;
     defaults := {| default_baseURL := None; default_headers := ∅ |};
     request_interceptors := [];
     response_interceptors := [] |}.

(** [axios.post(url, data)]. *)
Definition axios_post (target : string) (body : Json) : Task Response :=
  request axios
    {| method := "post"; baseURL := None; url := target; headers := ∅;
       data := Some body; _retry := false |}.

(** ** [lib/api.ts] *)

(** const api = axios.create({ baseURL, headers }) *)
Definition api_defaults : Defaults :=
  {| default_baseURL := Some "/api/v1";
     default_headers := {[ "Content-Type" := "application/json" ]} |}.

(** Request interceptor, fulfilled side: add the auth token. *)
Definition request_onFulfilled (config : Config) : Task Config :=
  token ← getItem "access_token";
  if truthy token
  then mret (with_header "Authorization" ("Bearer " +:+ default "" token) config)
  else mret config.

Definition request_onRejected (error : Thrown) : Task Config :=
  reject error.

Definition response_onFulfilled (response : Response) : Task Response :=
  mret response.

Definition is_401 (e : AxiosError) : bool :=
  match response e with
  | Some r => bool_decide (status r = 401%Z)
  | None => false
  end.

(** Response interceptor, rejected side.  [api] is the instance itself, called
    for the resend.  The [try] block covers what is awaited inside it; the
    promises it returns ([Promise.reject(error)], [api(originalRequest)],
    and [Promise.reject(refreshError)] in the handler) are returned
    un-awaited, so they settle the interceptor's own promise outside the
    [try]: the block yields them as values and they run after it. *)
Definition response_onRejected (api : Config -> Task Response) (error : Thrown)
    : Task Response :=
  match error with
  | TypeErr _ => reject error
  | AxiosErr e =>
      let originalRequest := config e in
      if is_401 e && negb (_retry originalRequest) then
        (* originalRequest is error.config: the error now carries the marker *)
        let originalRequest := with_retry true originalRequest in
        let error := AxiosErr {| config := originalRequest; response := response e |} in
        emit (EvRetryMarked originalRequest) ;;
        returned ← try_catch
          (refreshToken ← getItem "refresh_token";
           if negb (truthy refreshToken) then
             removeItem "access_token" ;;
             removeItem "refresh_token" ;;
             navigate "/auth" ;;
             mret (reject error)
           else
             response ← axios_post "/api/v1/auth/refresh"
                          (JObj [("refresh_token", JStr (default "" refreshToken))]);
             tokens ← js_get (Some (response_data response)) "data";
             access_token ← js_get tokens "access_token";
             new_refresh_token ← js_get tokens "refresh_token";
             setItem "access_token" (ToString access_token) ;;
             setItem "refresh_token" (ToString new_refresh_token) ;;
             let originalRequest :=
               with_header "Authorization" ("Bearer " +:+ ToString access_token)
                 originalRequest in
             mret (api originalRequest))
          (fun refreshError =>
             removeItem "access_token" ;;
             removeItem "refresh_token" ;;
             navigate "/auth" ;;
             mret (reject refreshError));
        returned
      else reject error
  end.

(** The instance with both interceptors installed; [self] is the instance as
    the response interceptor calls it. *)
Definition api_instance (self : Config -> Task Response) : Instance :=
  {| client := Api;
     defaults := api_defaults;
     request_interceptors :=
       [ {| onFulfilled := request_onFulfilled; onRejected := request_onRejected |} ];
     response_interceptors :=
       [ {| onFulfilled := response_onFulfilled;
            onRejected := response_onRejected self |} ] |}.

(** [api(config)].  The interceptor calls [api] again; [fuel] bounds the depth
    of that recursion. *)
Fixpoint api_fuel (fuel : nat) (config : Config) : Task Response :=
  match fuel with
  | O => out_of_fuel
  | S fuel' => request (api_instance (api_fuel fuel')) config
  end.

(** One send and at most one resend: depth two is all the code ever uses
    (see [api_fuel_enough]). *)
Definition api : Config -> Task Response := api_fuel 2.

(** [api.get(url)]. *)
Definition api_get (target : string) : Task Response :=
  api {| method := "get"; baseURL := None; url := target; headers := ∅;
         data := None; _retry := false |}.

(** ** [contexts/AuthContext.tsx] *)

Definition logout : Task unit :=
  removeItem "access_token" ;;
  removeItem "refresh_token" ;;
  setUser (Some JNull).

Definition refreshUser : Task unit :=
  try_catch
    (response ← api_get "/users/me";
     profile ← js_get (Some (response_data response)) "data";
     setUser profile)
    (fun error =>
       emit (EvConsoleError error) ;;
       logout).

(** [login] does not await [refreshUser]; run on its own it proceeds in this
    order. *)
Definition login (access_token refresh_token : string) : Task unit :=
  setItem "access_token" access_token ;;
  setItem "refresh_token" refresh_token ;;
  refreshUser.

Definition initAuth : Task unit :=
  token ← getItem "access_token";
  (if truthy token then refreshUser else mret tt) ;;
  setIsLoading false.

(** ** The runs of [api], described directly *)

(** What the request interceptor makes of a request, as a function of the
    storage it finds. *)
Definition authorize (store : gmap string string) (config : Config) : Config :=
  if truthy (store !! "access_token")
  then with_header "Authorization"
         ("Bearer " +:+ default "" (store !! "access_token")) config
  else config.

(** The request [api] puts on the wire for [config]. *)
Definition prepare (store : gmap string string) (config : Config) : Config :=
  authorize store (mergeConfig api_defaults config).

(** The request [axios.post] puts on the wire for the refresh call. *)
Definition refresh_request (refreshToken : string) : Config :=
  mergeConfig (defaults axios)
    {| method := "post"; baseURL := None; url := "/api/v1/auth/refresh";
       headers := ∅;
       data := Some (JObj [("refresh_token", JStr refreshToken)]);
       _retry := false |}.

(** The error object after [originalRequest._retry = true]. *)
Definition marked (e : AxiosError) : AxiosError :=
  {| config := with_retry true (config e); response := response e |}.

(** The rejection the response interceptor acts on, if it is one: a 401
    whose request does not carry the marker. *)
Definition refreshable (o : Settled Response) : option AxiosError :=
  match o with
  | Rejected (AxiosErr e) =>
      if is_401 e && negb (_retry (config e)) then Some e else None
  | _ => None
  end.

(** The destructuring of [response.data.data]. *)
Definition read_tokens (body : Json) : Thrown + (JsValue * JsValue) :=
  match property (Some body) "data" with
  | inl e => inl e
  | inr tokens =>
      match property tokens "access_token" with
      | inl e => inl e
      | inr access_token =>
          match property tokens "refresh_token" with
          | inl e => inl e
          | inr new_refresh_token => inr (access_token, new_refresh_token)
          end
      end
  end.

(** Both keys removed and the page sent to [/auth]. *)
Definition logged_out (w : World) : World :=
  {| localStorage := delete "refresh_token" (delete "access_token" (localStorage w));
     href := "/auth"; user := user w; isLoading := isLoading w;
     events := events w ++ [EvNavigate "/auth"] |}.

(** Both keys written. *)
Definition store_tokens (access_token refresh_token : string) (w : World) : World :=
  with_storage (insert "refresh_token" refresh_token)
    (with_storage (insert "access_token" access_token) w).

(** The world once the first dispatch is out and its request is marked. *)
Definition first_failed (sent : Config) (w : World) : World :=
  emit_in (EvRetryMarked (with_retry true sent)) (emit_in (EvRequest Api sent) w).

(** The world once the refresh call is out as well. *)
Definition refresh_sent (sent : Config) (refreshToken : string) (w : World) : World :=
  emit_in (EvRequest Raw (refresh_request refreshToken)) (first_failed sent w).

(** The request handed back to [api] after a refresh. *)
Definition resend_of (sent : Config) (access_token : JsValue) : Config :=
  with_header "Authorization" ("Bearer " +:+ ToString access_token)
    (with_retry true sent).

(** Every way a call of [api] can go.  The last rule is the resend: its
    premise is a run of [api] itself. *)
Inductive api_run : Config -> World -> Settled Response -> World -> Prop :=
| run_settled cfg w sent o :
    sent = prepare (localStorage w) cfg ->
    settle sent (backend (events w) sent) = o ->
    refreshable o = None ->
    api_run cfg w o (emit_in (EvRequest Api sent) w)
| run_no_refresh_token cfg w sent e :
    sent = prepare (localStorage w) cfg ->
    refreshable (settle sent (backend (events w) sent)) = Some e ->
    truthy (localStorage w !! "refresh_token") = false ->
    api_run cfg w (Rejected (AxiosErr (marked e))) (logged_out (first_failed sent w))
| run_refresh_rejected cfg w sent e rt reason :
    sent = prepare (localStorage w) cfg ->
    refreshable (settle sent (backend (events w) sent)) = Some e ->
    localStorage w !! "refresh_token" = Some rt ->
    truthy (Some rt) = true ->
    settle (refresh_request rt)
      (backend (events (first_failed sent w)) (refresh_request rt)) = Rejected reason ->
    api_run cfg w (Rejected reason) (logged_out (refresh_sent sent rt w))
| run_refresh_unreadable cfg w sent e rt ok reason :
    sent = prepare (localStorage w) cfg ->
    refreshable (settle sent (backend (events w) sent)) = Some e ->
    localStorage w !! "refresh_token" = Some rt ->
    truthy (Some rt) = true ->
    settle (refresh_request rt)
      (backend (events (first_failed sent w)) (refresh_request rt)) = Fulfilled ok ->
    read_tokens (response_data ok) = inl reason ->
    api_run cfg w (Rejected reason) (logged_out (refresh_sent sent rt w))
| run_resend cfg w sent e rt ok access_token new_refresh_token o w' :
    sent = prepare (localStorage w) cfg ->
    refreshable (settle sent (backend (events w) sent)) = Some e ->
    localStorage w !! "refresh_token" = Some rt ->
    truthy (Some rt) = true ->
    settle (refresh_request rt)
      (backend (events (first_failed sent w)) (refresh_request rt)) = Fulfilled ok ->
    read_tokens (response_data ok) = inr (access_token, new_refresh_token) ->
    api_run (resend_of sent access_token)
      (store_tokens (ToString access_token) (ToString new_refresh_token)
         (refresh_sent sent rt w))
      o w' ->
    api_run cfg w o w'.

(** ** What a trace shows *)

(** The requests that went out through the bare client. *)
Fixpoint raw_requests (l : list Event) : list Config :=
  match l with
  | [] => []
  | EvRequest Raw c :: rest => c :: raw_requests rest
  | _ :: rest => raw_requests rest
  end.

(** The requests that went out through [api] without the marker. *)
Fixpoint first_sends (l : list Event) : list Config :=
  match l with
  | [] => []
  | EvRequest Api c :: rest =>
      if _retry c then first_sends rest else c :: first_sends rest
  | _ :: rest => first_sends rest
  end.

(** No request leaves through the bare client before a request was marked:
    [seen] tells whether a marking came earlier. *)
Fixpoint marked_first (seen : bool) (l : list Event) : bool :=
  match l with
  | [] => true
  | EvRetryMarked _ :: rest => marked_first true rest
  | EvRequest Raw _ :: rest => seen && marked_first seen rest
  | _ :: rest => marked_first seen rest
  end.

(** The values [setIsLoading] was called with. *)
Fixpoint loading_writes (l : list Event) : list bool :=
  match l with
  | [] => []
  | EvSetIsLoading b :: rest => b :: loading_writes rest
  | _ :: rest => loading_writes rest
  end.

(** The targets the page was sent to. *)
Fixpoint navigations (l : list Event) : list string :=
  match l with
  | [] => []
  | EvNavigate target :: rest => target :: navigations rest
  | _ :: rest => navigations rest
  end.

(** The events [api] itself can cause. *)
Definition client_event (ev : Event) : bool :=
  match ev with
  | EvRequest _ _ | EvRetryMarked _ | EvNavigate _ => true
  | _ => false
  end.

(** The world [refreshUser] leaves once the fetch has settled. *)
Definition after_fetch (o : Settled Response) (w : World) : World :=
  let failed (error : Thrown) :=
    {| localStorage := delete "refresh_token" (delete "access_token" (localStorage w));
       href := href w; user := Some JNull; isLoading := isLoading w;
       events := events w ++ [EvConsoleError error; EvSetUser (Some JNull)] |} in
  match o with
  | Fulfilled r =>
      match property (Some (response_data r)) "data" with
      | inr profile =>
          {| localStorage := localStorage w; href := href w; user := profile;
             isLoading := isLoading w;
             events := events w ++ [EvSetUser profile] |}
      | inl error => failed error
      end
  | Rejected error => failed error
  end.

(** The world with the loading flag cleared. *)
Definition ready (w : World) : World :=
  {| localStorage := localStorage w; href := href w; user := user w;
     isLoading := false; events := events w ++ [EvSetIsLoading false] |}.

End Backend.

(** ** Concrete backends, requests and worlds *)

Module Examples.

Definition reply (st : Z) (body : Json) : Response :=
  {| status := st;
     response_headers := {[ "content-type" := "application/json" ]};
     response_data := body |}.

Definition unauthorized : Response :=
  reply 401 (JObj [("detail", JStr "Could not validate credentials")]).

Definition server_error : Response :=
  reply 500 (JObj [("detail", JStr "Internal Server Error")]).

Definition podcast_list : Response :=
  reply 200
    (JObj [("message", JStr "Podcasts retrieved");
           ("data", JObj [("items", JArr []); ("total", JNum "0");
                          ("page", JNum "1"); ("per_page", JNum "10")])]).

Definition fresh_pair : Response :=
  reply 200
    (JObj [("message", JStr "Token refreshed");
           ("data", JObj [("access_token", JStr "a2");
                          ("refresh_token", JStr "r2");
                          ("token_type", JStr "bearer")])]).

Definition is_refresh (c : Config) : bool :=
  String.eqb (url c) "/api/v1/auth/refresh".

Definition bears (token : string) (c : Config) : bool :=
  bool_decide (headers c !! "Authorization" = Some ("Bearer " +:+ token)).

(** [a1] has expired, [r1] buys the pair [a2]/[r2], and [a2] is accepted. *)
Definition rotating (history : list Event) (c : Config) : Wire :=
  if is_refresh c then Replied fresh_pair
  else if bears "a2" c then Replied podcast_list
  else Replied unauthorized.

(** The refresh endpoint works, every other endpoint answers 401 whatever
    the token. *)
Definition refusing (history : list Event) (c : Config) : Wire :=
  if is_refresh c then Replied fresh_pair else Replied unauthorized.

(** Every endpoint, the refresh endpoint included, answers 401. *)
Definition locked (history : list Event) (c : Config) : Wire :=
  Replied unauthorized.

(** Every endpoint answers 500. *)
Definition failing (history : list Event) (c : Config) : Wire :=
  Replied server_error.

(** Every endpoint answers 200 with the podcast list. *)
Definition welcoming (history : list Event) (c : Config) : Wire :=
  Replied podcast_list.

Definition get_podcasts : Config :=
  {| method := "get"; baseURL := None; url := "/podcasts/"; headers := ∅;
     data := None; _retry := false |}.

(** A caller that brings its own [Authorization] header. *)
Definition get_with_own_header : Config :=
  {| method := "get"; baseURL := None; url := "/podcasts/";
     headers := {[ "Authorization" := "Bearer stale" ]};
     data := None; _retry := false |}.

Definition page (store : gmap string string) : World :=
  {| localStorage := store; href := "/dashboard"; user := Some JNull;
     isLoading := true; events := [] |}.

Definition signed_in : World :=
  page (<["access_token" := "a1"]> (<["refresh_token" := "r1"]> ∅)).

Definition access_only : World := page (<["access_token" := "a1"]> ∅).

Definition signed_out : World := page ∅.

(** The stages of the refresh protocol for [get_podcasts] in [signed_in]. *)
Definition first_send : Config := prepare (localStorage signed_in) get_podcasts.

Definition stored : World := store_tokens "a2" "r2" (refresh_sent first_send "r1" signed_in).

Definition resent : Config := resend_of first_send (Some (JStr "a2")).

Definition second_send : Config := prepare (localStorage stored) resent.

Definition after_resend : World := emit_in (EvRequest Api second_send) stored.

End Examples.

(** ** Further trace readings *)

(** The requests that went out through [api], in order. *)
Fixpoint api_requests (l : list Event) : list Config :=
  match l with
  | [] => []
  | EvRequest Api c :: rest => c :: api_requests rest
  | _ :: rest => api_requests rest
  end.

(** The descriptor [api.get(url)] hands to the instance. *)
Definition get_config (target : string) : Config :=
  {| method := "get"; baseURL := None; url := target; headers := ∅;
     data := None; _retry := false |}.

(** ** [Onboarding]: the topic selection *)

Inductive Plan := free | paid.

(** [Topic] of [types/api.ts]. *)
Record Topic := {
  topic_id : Z;
  topic_name : string;
  topic_slug : string;
  topic_description : option string
}.

(** const maxTopics = selectedPlan === "free" ? 3 : topics.length *)
Definition maxTopics (selectedPlan : Plan) (topics : list Topic) : nat :=
  match selectedPlan with
  | free => 3
  | paid => length topics
  end.

(** [toggleTopic]: the selection it hands to [setSelectedTopics], or the
    selection as it is when neither branch is taken. *)
Definition toggleTopic (selectedPlan : Plan) (topics : list Topic)
    (selectedTopics : list Z) (topicId : Z) : list Z :=
  if bool_decide (topicId ∈ selectedTopics) then
    filter (fun t => t ≠ topicId) selectedTopics
  else if bool_decide (length selectedTopics < maxTopics selectedPlan topics) then
    selectedTopics ++ [topicId]
  else selectedTopics.

(** ** Pages that call the client *)

(** What a page shows around a call: the flags it sets with its state
    setters and the toasts it raises. *)
Inductive UiEvent :=
| UiFlag (name : string) (value : bool)     (* setIsDeleting(value), ... *)
| UiToastSuccess (message : Json)           (* toast.success(message) *)
| UiToastError (message : Json).            (* toast.error(message) *)

Record Page := {
  browser : World;
  screen : list UiEvent
}.

(** An event handler of a page: a task that also writes to the screen. *)
Definition Handler (A : Type) : Type := Page -> option (Settled A * Page).

Definition lift {A} (t : Task A) : Handler A :=
  fun p =>
    match t (browser p) with
    | None => None
    | Some (s, w) => Some (s, {| browser := w; screen := screen p |})
    end.

Definition ui (ev : UiEvent) : Handler unit :=
  fun p => Some (Fulfilled tt, {| browser := browser p; screen := screen p ++ [ev] |}).

Definition page_then {A B} (h : Handler A) (onFulfilled : A -> Handler B)
    (onRejected : Thrown -> Handler B) : Handler B :=
  fun p =>
    match h p with
    | None => None
    | Some (Fulfilled a, p') => onFulfilled a p'
    | Some (Rejected e, p') => onRejected e p'
    end.

#[global] Instance handler_ret : MRet Handler :=
  fun A a p => Some (Fulfilled a, p).
#[global] Instance handler_bind : MBind Handler :=
  fun A B f h => page_then h f (fun e p => Some (Rejected e, p)).

(** [try { body } catch (error) { handler error }]. *)
Definition page_try {A} (body : Handler A) (handler : Thrown -> Handler A) : Handler A :=
  page_then body mret handler.

(** [... finally { final }]: [final] runs either way and, completing
    normally, leaves the outcome as it was. *)
Definition page_finally {A} (body : Handler A) (final : Handler unit) : Handler A :=
  fun p =>
    match body p with
    | None => None
    | Some (s, p1) =>
        match final p1 with
        | None => None
        | Some (Fulfilled _, p2) => Some (s, p2)
        | Some (Rejected e, p2) => Some (Rejected e, p2)
        end
    end.

(** Truthiness of a payload value. *)
Definition truthy_value (v : JsValue) : bool :=
  match v with
  | None | Some JNull => false
  | Some (JBool b) => b
  | Some (JNum repr) => negb (String.eqb repr "0") && negb (String.eqb repr "NaN")
  | Some (JStr s) => negb (String.eqb s "")
  | Some (JArr _) | Some (JObj _) => true
  end.

(** [error.response?.data?.detail]. *)
Definition error_detail (error : Thrown) : JsValue :=
  match error with
  | AxiosErr e =>
      match response e with
      | Some r =>
          match response_data r with
          | JObj fields => own_property "detail" fields
          | _ => None
          end
      | None => None
      end
  | TypeErr _ => None
  end.

(** [error.response?.data?.detail || fallback]. *)
Definition detail_or (error : Thrown) (fallback : string) : Json :=
  match error_detail error with
  | Some detail => if truthy_value (Some detail) then detail else JStr fallback
  | None => JStr fallback
  end.

Section Pages.

Variable backend : list Event -> Config -> Wire.

(** [api.delete(url)]. *)
Definition api_delete (target : string) : Task Response :=
  api backend
    {| method := "delete"; baseURL := None; url := target; headers := ∅;
       data := None; _retry := false |}.

(** [Profile]: handleDeleteAvatar. *)
Definition handleDeleteAvatar : Handler unit :=
  page_finally
    (page_try
       (ui (UiFlag "isDeleting" true) ;;
        lift (api_delete "/users/me/avatar") ;;
        lift (refreshUser backend) ;;
        ui (UiToastSuccess (JStr "Avatar deleted successfully!")))
       (fun error =>
          lift (emit (EvConsoleError error)) ;;
          ui (UiToastError (detail_or error "Failed to delete avatar."))))
    (ui (UiFlag "isDeleting" false)).


End Pages.

(** The descriptor [api.delete(url)] hands to the instance. *)
Definition delete_config (target : string) : Config :=
  {| method := "delete"; baseURL := None; url := target; headers := ∅;
     data := None; _retry := false |}.

(** The screen of [handleDeleteAvatar] around its one toast. *)
Definition deleting_screen (before : list UiEvent) (toast : UiEvent) : list UiEvent :=
  before ++ [UiFlag "isDeleting" true; toast; UiFlag "isDeleting" false].


(** ** Further concrete backends and worlds *)

Module MoreExamples.



(** The refresh endpoint answers 200 with a [data] object without tokens. *)
Definition incomplete_reply : Response :=
  Examples.reply 200 (JObj [("data", JObj [("token_type", JStr "bearer")])]).

Definition incomplete (history : list Event) (c : Config) : Wire :=
  if Examples.is_refresh c then Replied incomplete_reply
  else Replied Examples.unauthorized.

Definition avatar_deleted : Response :=
  Examples.reply 200 (JObj [("message", JStr "Avatar deleted")]).

(** DELETE requests succeed, everything else answers 500. *)
Definition deleting_only (history : list Event) (c : Config) : Wire :=
  if String.eqb (method c) "delete" then Replied avatar_deleted
  else Replied Examples.server_error.

(** A world with a third key in storage. *)
Definition themed : World :=
  Examples.page (<["theme" := "dark"]> (localStorage Examples.signed_in)).

Definition profile_page : Page :=
  {| browser := Examples.signed_in; screen := [] |}.

(** The run of [get_podcasts] in [signed_in] against [locked]. *)
Definition refused : Settled Response :=
  Rejected (AxiosErr {| config := refresh_request "r1";
                        response := Some Examples.unauthorized |}).

Definition after_refusal : World :=
  logged_out (refresh_sent Examples.first_send "r1" Examples.signed_in).

(** The run of [get_podcasts] in [signed_in] against [refusing]. *)
Definition refused_again : Settled Response :=
  Rejected (AxiosErr {| config := Examples.second_send;
                        response := Some Examples.unauthorized |}).

(** The same run started in [themed]. *)
Definition after_refusal_themed : World :=
  logged_out (refresh_sent (prepare (localStorage themed) Examples.get_podcasts)
                "r1" themed).

(** A server error on the profile fetch, in [signed_in]. *)
Definition profile_fetch : Config :=
  prepare (localStorage Examples.signed_in) (get_config "/users/me").

Definition profile_failure : AxiosError :=
  {| config := profile_fetch; response := Some Examples.server_error |}.

(** The DELETE of the avatar, in [signed_in]. *)
Definition avatar_delete : Config :=
  prepare (localStorage Examples.signed_in) (delete_config "/users/me/avatar").


End MoreExamples.

(** * Properties *)

Create HintDb task.
#[local] Hint Unfold mbind mret task_bind task_ret then_ try_catch resolve reject
  getItem setItem removeItem emit navigate setUser setIsLoading : task.

(** Run the monadic plumbing of a goal. *)
Ltac run := repeat (autounfold with task; cbn).

#[local] Arguments request_onFulfilled : simpl never.
#[local] Arguments response_onRejected : simpl never.
#[local] Arguments dispatchRequest : simpl never.
#[local] Arguments axios_post : simpl never.
#[local] Arguments refresh_request : simpl never.
#[local] Arguments api_fuel : simpl never.
#[local] Arguments property : simpl never.

(** Solve [explicit list = pre ++ ev :: post] for [pre]. *)
Ltac split_trace :=
  repeat match goal with
    | H : _ = ?pre ++ _ :: _ |- _ => is_var pre; destruct pre; simplify_eq/=
    end.

Section Facts.

Context (backend : list Event -> Config -> Wire).

(** ** One step of each piece *)

Lemma request_onFulfilled_run config w :
  request_onFulfilled config w = Some (Fulfilled (authorize (localStorage w) config), w).
Proof.
  unfold request_onFulfilled, authorize. run.
  destruct (truthy (localStorage w !! "access_token")); reflexivity.
Qed.

Lemma api_fuel_step n cfg w :
  api_fuel backend (S n) cfg w =
    let sent := prepare (localStorage w) cfg in
    let w1 := emit_in (EvRequest Api sent) w in
    match settle sent (backend (events w) sent) with
    | Fulfilled r => Some (Fulfilled r, w1)
    | Rejected error => response_onRejected backend (api_fuel backend n) error w1
    end.
Proof.
  unfold api_fuel; fold (api_fuel backend).
  unfold request, chain, api_instance. cbn. unfold then_, resolve.
  rewrite request_onFulfilled_run.
  unfold dispatchRequest, prepare.
  destruct (settle _ _); reflexivity.
Qed.

Lemma axios_post_refresh rt w :
  axios_post backend "/api/v1/auth/refresh" (JObj [("refresh_token", JStr rt)]) w =
    Some (settle (refresh_request rt) (backend (events w) (refresh_request rt)),
          emit_in (EvRequest Raw (refresh_request rt)) w).
Proof. reflexivity. Qed.

Lemma refreshable_Some o e :
  refreshable o = Some e ->
  o = Rejected (AxiosErr e) /\ is_401 e = true /\ _retry (config e) = false.
Proof.
  destruct o as [r|[e'|m]]; cbn; try discriminate.
  destruct (is_401 e') eqn:H1; cbn; try discriminate.
  destruct (_retry (config e')) eqn:H2; cbn; try discriminate.
  intros [= <-]. auto.
Qed.

Lemma refreshable_None_rejected error :
  refreshable (Rejected error) = None ->
  forall self w, response_onRejected backend self error w = Some (Rejected error, w).
Proof.
  intros H self w. destruct error as [e|m]; [|reflexivity].
  cbn in H. unfold response_onRejected.
  destruct (is_401 e && negb (_retry (config e))); [discriminate|reflexivity].
Qed.

Lemma handler_no_refresh_token self e w :
  is_401 e = true -> _retry (config e) = false ->
  truthy (localStorage w !! "refresh_token") = false ->
  response_onRejected backend self (AxiosErr e) w =
    Some (Rejected (AxiosErr (marked e)),
          logged_out (emit_in (EvRetryMarked (with_retry true (config e))) w)).
Proof.
  intros H1 H2 H3. unfold response_onRejected. rewrite H1, H2. cbn [andb negb].
  run. rewrite H3. run. reflexivity.
Qed.

Lemma handler_refresh_rejected self e w rt reason :
  is_401 e = true -> _retry (config e) = false ->
  localStorage w !! "refresh_token" = Some rt -> truthy (Some rt) = true ->
  let w1 := emit_in (EvRetryMarked (with_retry true (config e))) w in
  settle (refresh_request rt) (backend (events w1) (refresh_request rt)) = Rejected reason ->
  response_onRejected backend self (AxiosErr e) w =
    Some (Rejected reason, logged_out (emit_in (EvRequest Raw (refresh_request rt)) w1)).
Proof.
  intros H1 H2 H3 H4 w1 H5. unfold response_onRejected. rewrite H1, H2. cbn [andb negb].
  run. rewrite H3, H4. run. rewrite axios_post_refresh. cbn.
  cbn in H5. rewrite H5.
  run. reflexivity.
Qed.

Lemma handler_refresh_fulfilled self e w rt ok :
  is_401 e = true -> _retry (config e) = false ->
  localStorage w !! "refresh_token" = Some rt -> truthy (Some rt) = true ->
  let w1 := emit_in (EvRetryMarked (with_retry true (config e))) w in
  let w2 := emit_in (EvRequest Raw (refresh_request rt)) w1 in
  settle (refresh_request rt) (backend (events w1) (refresh_request rt)) = Fulfilled ok ->
  response_onRejected backend self (AxiosErr e) w =
    match read_tokens (response_data ok) with
    | inl reason => Some (Rejected reason, logged_out w2)
    | inr (access_token, new_refresh_token) =>
        self (resend_of (config e) access_token)
          (store_tokens (ToString access_token) (ToString new_refresh_token) w2)
    end.
Proof.
  intros H1 H2 H3 H4 w1 w2 H5. unfold response_onRejected. rewrite H1, H2. cbn [andb negb].
  run. rewrite H3, H4. run. rewrite axios_post_refresh. cbn.
  cbn in H5. rewrite H5. cbn.
  unfold read_tokens, js_get.
  destruct (property (Some (response_data ok)) "data") as [err|tokens]; [reflexivity|].
  run.
  destruct (property tokens "access_token") as [err|a]; [reflexivity|].
  run.
  destruct (property tokens "refresh_token") as [err|r]; [reflexivity|].
  run. reflexivity.
Qed.

(** ** The marker bounds the recursion *)

Lemma prepare_retry store cfg : _retry (prepare store cfg) = _retry cfg.
Proof.
  unfold prepare, authorize. destruct (truthy _); reflexivity.
Qed.

Lemma settle_rejected_config sent reply e :
  settle sent reply = Rejected (AxiosErr e) -> config e = sent.
Proof.
  destruct reply as [|r]; cbn.
  - intros [= <-]. reflexivity.
  - destruct (validateStatus _); [discriminate|]. intros [= <-]. reflexivity.
Qed.

Lemma settle_rejected_axios sent reply reason :
  settle sent reply = Rejected reason -> exists e, reason = AxiosErr e /\ config e = sent.
Proof.
  destruct reply as [|r]; cbn.
  - intros [= <-]. eauto.
  - destruct (validateStatus _); [discriminate|]. intros [= <-]. eauto.
Qed.

Lemma marked_not_refreshable sent reply :
  _retry sent = true -> refreshable (settle sent reply) = None.
Proof.
  intros Hm. destruct (refreshable _) as [e|] eqn:He; [|reflexivity].
  apply refreshable_Some in He as (Hs & _ & Hr).
  apply settle_rejected_config in Hs. congruence.
Qed.

Lemma api_run_marked cfg w o w' :
  _retry cfg = true ->
  api_run backend cfg w o w' ->
  let sent := prepare (localStorage w) cfg in
  o = settle sent (backend (events w) sent) /\ w' = emit_in (EvRequest Api sent) w.
Proof.
  intros Hm Hrun.
  assert (Hn : forall reply, refreshable (settle (prepare (localStorage w) cfg) reply) = None).
  { intros reply. apply marked_not_refreshable. by rewrite prepare_retry. }
  inversion Hrun; subst; cbn;
    try match goal with H : refreshable _ = Some _ |- _ => rewrite Hn in H; discriminate end.
  auto.
Qed.

Lemma api_fuel_settled n cfg w :
  let sent := prepare (localStorage w) cfg in
  let o := settle sent (backend (events w) sent) in
  refreshable o = None ->
  api_fuel backend (S n) cfg w = Some (o, emit_in (EvRequest Api sent) w).
Proof.
  cbn. intros Hn. rewrite api_fuel_step. cbn.
  destruct (settle _ _) as [r|error]; [reflexivity|].
  by apply refreshable_None_rejected.
Qed.

Lemma api_fuel_sound n : forall cfg w o w',
  api_fuel backend n cfg w = Some (o, w') -> api_run backend cfg w o w'.
Proof.
  induction n as [|n IH]; intros cfg w o w' Hrun; [discriminate|].
  rewrite api_fuel_step in Hrun. cbn in Hrun.
  set (sent := prepare (localStorage w) cfg) in *.
  destruct (refreshable (settle sent (backend (events w) sent))) as [e|] eqn:Hr.
  - destruct (refreshable_Some _ _ Hr) as (Hs & H401 & Hm).
    pose proof (settle_rejected_config _ _ _ Hs) as Hc.
    rewrite Hs in Hrun.
    destruct (localStorage w !! "refresh_token") as [rt|] eqn:Hrt.
    + destruct (truthy (Some rt)) eqn:Ht.
      * destruct (settle (refresh_request rt)
                    (backend (events (first_failed sent w)) (refresh_request rt)))
          as [ok|reason] eqn:Hrf.
        -- rewrite (handler_refresh_fulfilled _ e _ rt ok) in Hrun; try done;
             [|by rewrite Hc].
           rewrite Hc in Hrun.
           destruct (read_tokens (response_data ok)) as [reason|[a r]] eqn:Htok.
           ++ injection Hrun as Ho Hw; subst o w'. by eapply run_refresh_unreadable.
           ++ apply IH in Hrun. clear Hc. by eapply run_resend with (sent := sent).
        -- rewrite (handler_refresh_rejected _ e _ rt reason) in Hrun; try done;
             [|by rewrite Hc].
           rewrite Hc in Hrun. injection Hrun as Ho Hw; subst o w'.
           by eapply run_refresh_rejected.
      * rewrite handler_no_refresh_token in Hrun; try done; [|cbn; by rewrite Hrt].
        rewrite Hc in Hrun. injection Hrun as Ho Hw; subst o w'.
        eapply run_no_refresh_token; try done. by rewrite Hrt.
    + rewrite handler_no_refresh_token in Hrun; try done; [|cbn; by rewrite Hrt].
      rewrite Hc in Hrun. injection Hrun as Ho Hw; subst o w'.
      eapply run_no_refresh_token; try done. by rewrite Hrt.
  - destruct (settle sent (backend (events w) sent)) as [r|error] eqn:Hs.
    + injection Hrun as Ho Hw; subst o w'. by eapply run_settled.
    + rewrite refreshable_None_rejected in Hrun by done.
      injection Hrun as Ho Hw; subst o w'. by eapply run_settled.
Qed.

Lemma resend_of_retry sent a : _retry (resend_of sent a) = true.
Proof. reflexivity. Qed.

Lemma api_run_computes cfg w o w' :
  api_run backend cfg w o w' ->
  forall n, api_fuel backend (S (S n)) cfg w = Some (o, w').
Proof.
  intros Hrun n. inversion Hrun as
    [cfg0 w0 sent o0 Hsent Hs Hr
    |cfg0 w0 sent e Hsent Hr Ht
    |cfg0 w0 sent e rt reason Hsent Hr Hrt Ht Hrf
    |cfg0 w0 sent e rt ok reason Hsent Hr Hrt Ht Hrf Htok
    |cfg0 w0 sent e rt ok a r o0 w0' Hsent Hr Hrt Ht Hrf Htok Hsub]; subst.
  - by apply api_fuel_settled.
  - destruct (refreshable_Some _ _ Hr) as (Hs & H401 & Hm).
    pose proof (settle_rejected_config _ _ _ Hs) as Hc.
    rewrite api_fuel_step. cbn. rewrite Hs.
    rewrite handler_no_refresh_token; try done. by rewrite Hc.
  - destruct (refreshable_Some _ _ Hr) as (Hs & H401 & Hm).
    pose proof (settle_rejected_config _ _ _ Hs) as Hc.
    rewrite api_fuel_step. cbn. rewrite Hs.
    rewrite (handler_refresh_rejected _ e _ rt reason); try done; by rewrite Hc.
  - destruct (refreshable_Some _ _ Hr) as (Hs & H401 & Hm).
    pose proof (settle_rejected_config _ _ _ Hs) as Hc.
    rewrite api_fuel_step. cbn. rewrite Hs.
    rewrite (handler_refresh_fulfilled _ e _ rt ok); try done; [|by rewrite Hc].
    rewrite Hc, Htok. reflexivity.
  - destruct (refreshable_Some _ _ Hr) as (Hs & H401 & Hm).
    pose proof (settle_rejected_config _ _ _ Hs) as Hc.
    rewrite api_fuel_step. cbn. rewrite Hs.
    rewrite (handler_refresh_fulfilled _ e _ rt ok); try done; [|by rewrite Hc].
    rewrite Hc, Htok.
    apply api_run_marked in Hsub as [-> ->]; [|reflexivity].
    apply api_fuel_settled. apply marked_not_refreshable. by rewrite prepare_retry.
Qed.

Lemma api_run_total cfg w : exists o w', api_run backend cfg w o w'.
Proof.
  set (sent := prepare (localStorage w) cfg).
  destruct (refreshable (settle sent (backend (events w) sent))) as [e|] eqn:Hr.
  - destruct (localStorage w !! "refresh_token") as [rt|] eqn:Hrt.
    + destruct (truthy (Some rt)) eqn:Ht.
      * destruct (settle (refresh_request rt)
                    (backend (events (first_failed sent w)) (refresh_request rt)))
          as [ok|reason] eqn:Hrf.
        -- destruct (read_tokens (response_data ok)) as [reason|[a r]] eqn:Htok.
           ++ do 2 eexists. by eapply run_refresh_unreadable.
           ++ do 2 eexists. eapply run_resend; try done.
              eapply run_settled; try done.
              apply marked_not_refreshable. by rewrite prepare_retry.
        -- do 2 eexists. by eapply run_refresh_rejected.
      * do 2 eexists. eapply run_no_refresh_token; try done. by rewrite Hrt.
    + do 2 eexists. eapply run_no_refresh_token; try done. by rewrite Hrt.
  - do 2 eexists. by eapply run_settled.
Qed.

(** Depth two is enough: more fuel changes nothing, and [api] always
    settles. *)
Lemma api_fuel_enough n cfg w : api_fuel backend (S (S n)) cfg w = api backend cfg w.
Proof.
  destruct (api_run_total cfg w) as (o & w' & Hrun).
  unfold api. by rewrite !(api_run_computes _ _ _ _ Hrun).
Qed.

Lemma api_settles cfg w : exists o w', api backend cfg w = Some (o, w').
Proof.
  destruct (api_run_total cfg w) as (o & w' & Hrun).
  exists o, w'. by apply (api_run_computes _ _ _ _ Hrun 0).
Qed.

Lemma api_run_iff cfg w o w' :
  api backend cfg w = Some (o, w') <-> api_run backend cfg w o w'.
Proof.
  split; [apply api_fuel_sound|]. intros Hrun. by apply (api_run_computes _ _ _ _ Hrun 0).
Qed.

(** ** Reading a trace *)

Lemma events_first_failed sent w :
  events (first_failed sent w) =
    events w ++ [EvRequest Api sent; EvRetryMarked (with_retry true sent)].
Proof. cbn. by rewrite <- app_assoc. Qed.

Lemma events_refresh_sent sent rt w :
  events (refresh_sent sent rt w) =
    events w ++ [EvRequest Api sent; EvRetryMarked (with_retry true sent);
                 EvRequest Raw (refresh_request rt)].
Proof. cbn. by rewrite <- !app_assoc. Qed.

Lemma events_logged_out_first sent w :
  events (logged_out (first_failed sent w)) =
    events w ++ [EvRequest Api sent; EvRetryMarked (with_retry true sent);
                 EvNavigate "/auth"].
Proof. cbn. by rewrite <- !app_assoc. Qed.

Lemma events_logged_out_refresh sent rt w :
  events (logged_out (refresh_sent sent rt w)) =
    events w ++ [EvRequest Api sent; EvRetryMarked (with_retry true sent);
                 EvRequest Raw (refresh_request rt); EvNavigate "/auth"].
Proof. cbn. by rewrite <- !app_assoc. Qed.

Lemma events_resent sent rt a r c w :
  events (emit_in (EvRequest Api c) (store_tokens a r (refresh_sent sent rt w))) =
    events w ++ [EvRequest Api sent; EvRetryMarked (with_retry true sent);
                 EvRequest Raw (refresh_request rt); EvRequest Api c].
Proof. cbn. by rewrite <- !app_assoc. Qed.

(** ** Small facts about requests *)

Lemma truthy_nonempty s : s ≠ "" -> truthy (Some s) = true.
Proof.
  intros Hs. cbn. destruct (String.eqb s "") eqn:E; [|reflexivity].
  by apply String.eqb_eq in E.
Qed.

Lemma validateStatus_401 r : status r = 401%Z -> validateStatus (status r) = false.
Proof. by intros ->. Qed.

Lemma settle_401 sent r :
  status r = 401%Z ->
  settle sent (Replied r) = Rejected (AxiosErr {| config := sent; response := Some r |}).
Proof. intros H. cbn. by rewrite validateStatus_401. Qed.

Lemma refreshable_401 sent r :
  status r = 401%Z -> _retry sent = false ->
  refreshable (settle sent (Replied r)) = Some {| config := sent; response := Some r |}.
Proof.
  intros H Hm. rewrite settle_401 by done. cbn. rewrite Hm.
  unfold is_401. cbn. by rewrite bool_decide_eq_true_2.
Qed.

Lemma prepare_baseURL store cfg : is_Some (baseURL (prepare store cfg)).
Proof.
  unfold prepare, authorize. destruct (truthy _); cbn; destruct (baseURL cfg); eauto.
Qed.

Lemma refresh_request_baseURL rt : baseURL (refresh_request rt) = None.
Proof. reflexivity. Qed.

Lemma refresh_request_headers rt name : headers (refresh_request rt) !! name = None.
Proof.
  unfold refresh_request, mergeConfig. cbn. by rewrite lookup_union, !lookup_empty.
Qed.

Lemma resend_header store sent a :
  store !! "access_token" = Some (ToString a) ->
  headers (prepare store (resend_of sent a)) !! "Authorization" =
    Some ("Bearer " +:+ ToString a).
Proof.
  intros Hst. unfold prepare, authorize. rewrite Hst.
  destruct (truthy (Some (ToString a))); cbn.
  - by rewrite lookup_insert_eq.
  - apply lookup_union_Some_l. by rewrite lookup_insert_eq.
Qed.

Lemma store_tokens_access a r w :
  localStorage (store_tokens a r w) !! "access_token" = Some a.
Proof. cbn. rewrite lookup_insert_ne by done. by rewrite lookup_insert_eq. Qed.

Lemma store_tokens_refresh a r w :
  localStorage (store_tokens a r w) !! "refresh_token" = Some r.
Proof. cbn. by rewrite lookup_insert_eq. Qed.

Lemma logged_out_access w : localStorage (logged_out w) !! "access_token" = None.
Proof. cbn. rewrite lookup_delete_ne by done. by rewrite lookup_delete_eq. Qed.

Lemma logged_out_refresh w : localStorage (logged_out w) !! "refresh_token" = None.
Proof. cbn. by rewrite lookup_delete_eq. Qed.


(** ** The claims about the client *)

(** C5. A request whose reply is a success comes back to the caller as the
    very response the backend produced; nothing else happens but the request
    going out. *)
Theorem success_passes_through cfg w r :
  let sent := prepare (localStorage w) cfg in
  backend (events w) sent = Replied r ->
  validateStatus (status r) = true ->
  exists w',
    api backend cfg w = Some (Fulfilled r, w') /\
    localStorage w' = localStorage w /\
    href w' = href w /\
    events w' = events w ++ [EvRequest Api sent].
Proof.
  intros sent Hb Hv. exists (emit_in (EvRequest Api sent) w). split; [|done].
  apply api_run_iff. eapply run_settled; [reflexivity| |reflexivity].
  fold sent. rewrite Hb. cbn. by rewrite Hv.
Qed.

(** C7. A failure that is not a 401, or a 401 on a request that already
    carries the marker, reaches the caller as it is: no retry, and the stored
    pair is not touched. *)
Theorem other_failures_propagate cfg w e :
  let sent := prepare (localStorage w) cfg in
  settle sent (backend (events w) sent) = Rejected (AxiosErr e) ->
  is_401 e = false \/ _retry cfg = true ->
  exists w',
    api backend cfg w = Some (Rejected (AxiosErr e), w') /\
    localStorage w' = localStorage w /\
    href w' = href w /\
    events w' = events w ++ [EvRequest Api sent].
Proof.
  intros sent Hs Hcase. exists (emit_in (EvRequest Api sent) w). split; [|done].
  apply api_run_iff. eapply run_settled; [reflexivity|exact Hs|].
  cbn. rewrite (settle_rejected_config _ _ _ Hs).
  destruct Hcase as [->|Hm]; [reflexivity|].
  unfold sent. rewrite prepare_retry, Hm. by rewrite andb_false_r.
Qed.

(** C6, as the code has it.  A 401 on a request that already carries the
    marker is surfaced to the caller and that is all: the client neither
    clears the two keys nor redirects on this path. *)
Theorem marked_401_is_only_surfaced cfg w r :
  let sent := prepare (localStorage w) cfg in
  _retry cfg = true ->
  backend (events w) sent = Replied r ->
  status r = 401%Z ->
  exists w',
    api backend cfg w =
      Some (Rejected (AxiosErr {| config := sent; response := Some r |}), w') /\
    localStorage w' = localStorage w /\
    href w' = href w /\
    events w' = events w ++ [EvRequest Api sent].
Proof.
  intros sent Hm Hb H401. exists (emit_in (EvRequest Api sent) w). split; [|done].
  apply api_run_iff. eapply run_settled; [reflexivity| |].
  - fold sent. rewrite Hb. by apply settle_401.
  - cbn. unfold sent. rewrite prepare_retry, Hm. by rewrite andb_false_r.
Qed.

(** C3. A first 401 with no refresh credential in storage (absent, or the
    empty string, which the code treats alike): both keys are removed, the
    page is sent to [/auth], the caller gets the error of the request (the
    same object, its request now marked), and no refresh call goes out. *)
Theorem no_refresh_token_logs_out cfg w r :
  let sent := prepare (localStorage w) cfg in
  _retry cfg = false ->
  backend (events w) sent = Replied r ->
  status r = 401%Z ->
  truthy (localStorage w !! "refresh_token") = false ->
  exists w',
    api backend cfg w =
      Some (Rejected (AxiosErr (marked {| config := sent; response := Some r |})), w') /\
    localStorage w' !! "access_token" = None /\
    localStorage w' !! "refresh_token" = None /\
    href w' = "/auth" /\
    events w' = events w ++ [EvRequest Api sent;
                             EvRetryMarked (with_retry true sent);
                             EvNavigate "/auth"].
Proof.
  intros sent Hm Hb H401 Hrt. exists (logged_out (first_failed sent w)).
  split; [|split; [|split; [|split]]].
  - apply api_run_iff. eapply run_no_refresh_token; [reflexivity| |exact Hrt].
    fold sent. rewrite Hb. apply refreshable_401; [done|].
    unfold sent. by rewrite prepare_retry.
  - apply logged_out_access.
  - apply logged_out_refresh.
  - reflexivity.
  - apply events_logged_out_first.
Qed.

(** C4. A first 401 whose refresh call fails: both keys are removed, the page
    is sent to [/auth], and the caller gets the error of the refresh call,
    which is not the error of the request. *)
Theorem refresh_failure_logs_out cfg w r rt reason :
  let sent := prepare (localStorage w) cfg in
  _retry cfg = false ->
  backend (events w) sent = Replied r ->
  status r = 401%Z ->
  localStorage w !! "refresh_token" = Some rt ->
  rt ≠ "" ->
  settle (refresh_request rt)
    (backend (events (first_failed sent w)) (refresh_request rt)) = Rejected reason ->
  exists w',
    api backend cfg w = Some (Rejected reason, w') /\
    (exists e, reason = AxiosErr e /\ config e = refresh_request rt) /\
    reason ≠ AxiosErr {| config := sent; response := Some r |} /\
    reason ≠ AxiosErr (marked {| config := sent; response := Some r |}) /\
    localStorage w' !! "access_token" = None /\
    localStorage w' !! "refresh_token" = None /\
    href w' = "/auth" /\
    events w' = events w ++ [EvRequest Api sent;
                             EvRetryMarked (with_retry true sent);
                             EvRequest Raw (refresh_request rt);
                             EvNavigate "/auth"].
Proof.
  intros sent Hm Hb H401 Hrt Hne Hrf. exists (logged_out (refresh_sent sent rt w)).
  destruct (settle_rejected_axios _ _ _ Hrf) as (e & -> & He).
  assert (Hbase : forall c, is_Some (baseURL c) -> AxiosErr e ≠ AxiosErr {| config := c; response := Some r |}).
  { intros c [b Hb'] [= Heq]. rewrite Heq in He. cbn in He.
    rewrite He in Hb'. discriminate. }
  repeat split.
  - apply api_run_iff. eapply run_refresh_rejected; [reflexivity| |exact Hrt| |exact Hrf].
    + fold sent. rewrite Hb. apply refreshable_401; [done|].
      unfold sent. by rewrite prepare_retry.
    + by apply truthy_nonempty.
  - eauto.
  - apply Hbase, prepare_baseURL.
  - apply Hbase. cbn. apply prepare_baseURL.
  - apply logged_out_access.
  - apply logged_out_refresh.
  - apply events_logged_out_refresh.
Qed.

(** C1. A first 401, a refresh credential in storage and a refresh call that
    succeeds with a new pair: both keys hold the new values (as strings), the
    request gets [Authorization: Bearer <new access token>] in place of what
    it had, it goes through [api] again, and what that resend settles to is
    what the caller gets. *)
Theorem refresh_success_resends cfg w r rt ok a r' :
  let sent := prepare (localStorage w) cfg in
  _retry cfg = false ->
  backend (events w) sent = Replied r ->
  status r = 401%Z ->
  localStorage w !! "refresh_token" = Some rt ->
  rt ≠ "" ->
  backend (events (first_failed sent w)) (refresh_request rt) = Replied ok ->
  validateStatus (status ok) = true ->
  read_tokens (response_data ok) = inr (a, r') ->
  let stored := store_tokens (ToString a) (ToString r') (refresh_sent sent rt w) in
  let resent :=
    with_header "Authorization" ("Bearer " +:+ ToString a) (with_retry true sent) in
  let sent_again := prepare (localStorage stored) resent in
  localStorage stored =
    <["refresh_token" := ToString r']>
      (<["access_token" := ToString a]> (localStorage w)) /\
  headers resent !! "Authorization" = Some ("Bearer " +:+ ToString a) /\
  headers sent_again !! "Authorization" = Some ("Bearer " +:+ ToString a) /\
  _retry sent_again = true /\
  api backend cfg w = api backend resent stored /\
  exists w',
    api backend cfg w =
      Some (settle sent_again (backend (events stored) sent_again), w') /\
    localStorage w' !! "access_token" = Some (ToString a) /\
    localStorage w' !! "refresh_token" = Some (ToString r') /\
    events w' = events w ++ [EvRequest Api sent;
                             EvRetryMarked (with_retry true sent);
                             EvRequest Raw (refresh_request rt);
                             EvRequest Api sent_again].
Proof.
  intros sent Hm Hb H401 Hrt Hne Hrb Hv Htok stored resent sent_again.
  assert (Hsub : api_run backend resent stored
            (settle sent_again (backend (events stored) sent_again))
            (emit_in (EvRequest Api sent_again) stored)).
  { eapply run_settled; [reflexivity|reflexivity|].
    apply marked_not_refreshable. unfold sent_again. by rewrite prepare_retry. }
  assert (Hrun : api_run backend cfg w
            (settle sent_again (backend (events stored) sent_again))
            (emit_in (EvRequest Api sent_again) stored)).
  { eapply run_resend with (sent := sent) (rt := rt) (ok := ok);
      [reflexivity| |exact Hrt|by apply truthy_nonempty| |exact Htok|exact Hsub].
    - fold sent. rewrite Hb. apply refreshable_401; [done|].
      unfold sent. by rewrite prepare_retry.
    - rewrite Hrb. cbn. by rewrite Hv. }
  apply api_run_iff in Hsub, Hrun.
  split; [reflexivity|]. split; [apply lookup_insert_eq|].
  split; [apply (resend_header _ sent a), store_tokens_access|].
  split; [unfold sent_again; by rewrite prepare_retry|].
  split; [by rewrite Hsub, Hrun|].
  exists (emit_in (EvRequest Api sent_again) stored).
  split; [exact Hrun|]. split; [apply store_tokens_access|].
  split; [apply store_tokens_refresh|]. apply events_resent.
Qed.

(** C2. In any call of [api] at most one refresh call goes out, and none
    before the request has been marked; every request after the first carries
    the marker; and a request that carries the marker and is answered 401 is
    the end of the call: nothing follows it, no refresh call and no redirect,
    and that 401 is the rejection the caller gets. *)
Theorem at_most_one_refresh cfg w o w' :
  api backend cfg w = Some (o, w') ->
  exists new,
    events w' = events w ++ new /\
    length (raw_requests new) <= 1 /\
    marked_first false new = true /\
    length (first_sends new) <= 1 /\
    first_sends (drop 1 new) = [] /\
    forall pre c post r,
      new = pre ++ EvRequest Api c :: post ->
      _retry c = true ->
      backend (events w ++ pre) c = Replied r ->
      status r = 401%Z ->
      o = Rejected (AxiosErr {| config := c; response := Some r |}) /\
      post = [].
Proof.
  intros Hrun. apply api_run_iff in Hrun.
  assert (Hfirst : forall e,
    refreshable (settle (prepare (localStorage w) cfg)
                   (backend (events w) (prepare (localStorage w) cfg))) = Some e ->
    _retry (prepare (localStorage w) cfg) = true -> False).
  { intros e He Hm. apply refreshable_Some in He as (Hs & _ & Hr).
    apply settle_rejected_config in Hs. congruence. }
  inversion Hrun as
    [cfg0 w0 sent o0 Hsent Hs Hr
    |cfg0 w0 sent e Hsent Hr Ht
    |cfg0 w0 sent e rt reason Hsent Hr Hrt Ht Hrf
    |cfg0 w0 sent e rt ok reason Hsent Hr Hrt Ht Hrf Htok
    |cfg0 w0 sent e rt ok a r0 o0 w0' Hsent Hr Hrt Ht Hrf Htok Hsub]; subst.
  - eexists. split; [reflexivity|]. cbn.
    split; [lia|]. split; [done|].
    split; [destruct (_retry _); cbn; lia|]. split; [done|].
    intros pre c post r Hnew Hm Hb H401. split_trace.
    rewrite app_nil_r in Hb. rewrite Hb. split; [by apply settle_401|done].
  - eexists. split; [apply events_logged_out_first|]. cbn.
    split; [lia|]. split; [done|].
    split; [destruct (_retry _); cbn; lia|]. split; [done|].
    intros pre c post r Hnew Hm Hb H401. split_trace.
    destruct (Hfirst _ Hr Hm).
  - eexists. split; [apply events_logged_out_refresh|]. cbn.
    split; [lia|]. split; [done|].
    split; [destruct (_retry _); cbn; lia|]. split; [done|].
    intros pre c post r Hnew Hm Hb H401. split_trace.
    destruct (Hfirst _ Hr Hm).
  - eexists. split; [apply events_logged_out_refresh|]. cbn.
    split; [lia|]. split; [done|].
    split; [destruct (_retry _); cbn; lia|]. split; [done|].
    intros pre c post r Hnew Hm Hb H401. split_trace.
    destruct (Hfirst _ Hr Hm).
  - apply api_run_marked in Hsub as [-> ->]; [|reflexivity].
    eexists. split; [apply events_resent|]. cbn.
    rewrite !prepare_retry. cbn.
    split; [lia|]. split; [done|].
    split; [destruct (_retry cfg); cbn; lia|]. split; [done|].
    intros pre c post r Hnew Hm Hb H401. split_trace.
    + destruct (Hfirst _ Hr Hm).
    + rewrite <- !app_assoc. cbn. rewrite Hb. split; [by apply settle_401|done].
Qed.

(** C10. The refresh call leaves through the bare client, not through the
    instance.  In any world the bare [post] is its dispatch and nothing else:
    the request it sends is fixed by the refresh token alone, carries no
    [Authorization] header whatever storage holds, and its rejection is
    handed on as it is.  So a first 401 with a refresh token in storage is
    followed by the marking, then by that one request through the bare
    client, then by one more event: the redirect, or the resend with the
    marker.  When the refresh call is rejected (with a 401 as with anything
    else) its error goes to the caller and only the redirect follows: no
    second refresh call, no resend. *)
Theorem refresh_call_is_bare cfg w r rt :
  let sent := prepare (localStorage w) cfg in
  let call := refresh_request rt in
  _retry cfg = false ->
  backend (events w) sent = Replied r ->
  status r = 401%Z ->
  localStorage w !! "refresh_token" = Some rt ->
  rt ≠ "" ->
  (forall v,
     axios_post backend "/api/v1/auth/refresh" (JObj [("refresh_token", JStr rt)]) v =
       Some (settle call (backend (events v) call), emit_in (EvRequest Raw call) v)) /\
  headers call !! "Authorization" = None /\
  exists o w' post,
    api backend cfg w = Some (o, w') /\
    events w' = events w ++ [EvRequest Api sent;
                             EvRetryMarked (with_retry true sent);
                             EvRequest Raw call] ++ post /\
    (post = [EvNavigate "/auth"] \/
     exists again, post = [EvRequest Api again] /\ _retry again = true) /\
    forall reason,
      settle call (backend (events (first_failed sent w)) call) = Rejected reason ->
      o = Rejected reason /\ post = [EvNavigate "/auth"].
Proof.
  intros sent call Hm Hb H401 Hrt Hne.
  split; [intros v; apply axios_post_refresh|].
  split; [apply refresh_request_headers|].
  assert (Hr : refreshable (settle sent (backend (events w) sent)) =
               Some {| config := sent; response := Some r |}).
  { rewrite Hb. apply refreshable_401; [done|]. unfold sent. by rewrite prepare_retry. }
  pose proof (truthy_nonempty rt Hne) as Ht.
  destruct (settle call (backend (events (first_failed sent w)) call))
    as [ok|reason] eqn:Hrf.
  - destruct (read_tokens (response_data ok)) as [reason|[a r0]] eqn:Htok.
    + exists (Rejected reason), (logged_out (refresh_sent sent rt w)), [EvNavigate "/auth"].
      split; [apply api_run_iff; by eapply run_refresh_unreadable with (sent := sent)|].
      split; [apply events_logged_out_refresh|]. split; [by left|]. done.
    + set (stored := store_tokens (ToString a) (ToString r0) (refresh_sent sent rt w)).
      set (again := prepare (localStorage stored) (resend_of sent a)).
      exists (settle again (backend (events stored) again)),
             (emit_in (EvRequest Api again) stored), [EvRequest Api again].
      split.
      { apply api_run_iff. eapply run_resend with (sent := sent); try done.
        eapply run_settled; [reflexivity|reflexivity|].
        apply marked_not_refreshable. unfold again. by rewrite prepare_retry. }
      split; [apply events_resent|].
      split; [right; exists again; split; [done|]; unfold again; by rewrite prepare_retry|].
      done.
  - exists (Rejected reason), (logged_out (refresh_sent sent rt w)), [EvNavigate "/auth"].
    split; [apply api_run_iff; by eapply run_refresh_rejected with (sent := sent)|].
    split; [apply events_logged_out_refresh|]. split; [by left|].
    by intros reason' [= <-].
Qed.

(** C8, as the code has it.  Every request a call of [api] sends through
    the instance, the first send and the resend alike, is the descriptor it
    was handed with the instance defaults merged in and the access token
    read from storage at that moment: a non-empty token sets
    [Authorization: Bearer <token>], over whatever the descriptor had; with
    no token or an empty one the descriptor goes out as it is, so it carries
    an [Authorization] header exactly when it brought one.  For the first
    send the storage is the one the call found; for the resend it is the one
    the refresh has just written, and the descriptor is the first request
    with the marker and the header set by the interceptor. *)
Theorem token_read_at_send_time cfg w o w' :
  api backend cfg w = Some (o, w') ->
  let sends (store : gmap string string) (descriptor sent : Config) :=
    let merged := mergeConfig api_defaults descriptor in
    match store !! "access_token" with
    | Some token =>
        if decide (token = "")
        then sent = merged /\
             headers sent !! "Authorization" = headers descriptor !! "Authorization"
        else sent = with_header "Authorization" ("Bearer " +:+ token) merged /\
             headers sent !! "Authorization" = Some ("Bearer " +:+ token)
    | None =>
        sent = merged /\
        headers sent !! "Authorization" = headers descriptor !! "Authorization"
    end in
  exists new,
    events w' = events w ++ new /\
    ((exists first,
        api_requests new = [first] /\
        sends (localStorage w) cfg first) \/
     (exists first again access_token refresh_token,
        api_requests new = [first; again] /\
        sends (localStorage w) cfg first /\
        localStorage w' =
          <["refresh_token" := refresh_token]>
            (<["access_token" := access_token]> (localStorage w)) /\
        sends (localStorage w')
          (with_header "Authorization" ("Bearer " +:+ access_token)
             (with_retry true first))
          again)).
Proof.
  intros Hrun sends. apply api_run_iff in Hrun.
  assert (Hmerged : forall d,
    headers (mergeConfig api_defaults d) !! "Authorization" =
      headers d !! "Authorization").
  { intros d. cbn. rewrite lookup_union, lookup_singleton_ne by done.
    by destruct (headers d !! "Authorization"). }
  assert (Hsends : forall store d, sends store d (prepare store d)).
  { intros store d. unfold sends, prepare, authorize.
    destruct (store !! "access_token") as [token|]; cbn; [|split; [done|apply Hmerged]].
    destruct (decide (token = "")) as [->|Hne]; [split; [done|apply Hmerged]|].
    apply String.eqb_neq in Hne. rewrite Hne. cbn.
    split; [done|]. apply lookup_insert_eq. }
  inversion Hrun as
    [cfg0 w0 sent o0 Hsent Hs Hr
    |cfg0 w0 sent e Hsent Hr Ht
    |cfg0 w0 sent e rt reason Hsent Hr Hrt Ht Hrf
    |cfg0 w0 sent e rt ok reason Hsent Hr Hrt Ht Hrf Htok
    |cfg0 w0 sent e rt ok a r0 o0 w0' Hsent Hr Hrt Ht Hrf Htok Hsub]; subst.
  - eexists. split; [reflexivity|]. left. eexists. split; [reflexivity|apply Hsends].
  - eexists. split; [apply events_logged_out_first|]. left.
    eexists. split; [reflexivity|apply Hsends].
  - eexists. split; [apply events_logged_out_refresh|]. left.
    eexists. split; [reflexivity|apply Hsends].
  - eexists. split; [apply events_logged_out_refresh|]. left.
    eexists. split; [reflexivity|apply Hsends].
  - apply api_run_marked in Hsub as [-> ->]; [|reflexivity].
    eexists. split; [apply events_resent|]. right.
    eexists _, _, (ToString a), (ToString r0).
    split; [reflexivity|]. split; [apply Hsends|]. split; [reflexivity|].
    apply Hsends.
Qed.

(** ** The session store *)

Lemma first_sends_app l1 l2 : first_sends (l1 ++ l2) = first_sends l1 ++ first_sends l2.
Proof.
  induction l1 as [|[[]c| | | | |] l1 IH]; cbn; try done.
  destruct (_retry c); cbn; by rewrite IH.
Qed.

Lemma loading_writes_app l1 l2 :
  loading_writes (l1 ++ l2) = loading_writes l1 ++ loading_writes l2.
Proof.
  induction l1 as [|[] l1 IH]; cbn; try done. by rewrite IH.
Qed.

Lemma client_events_no_loading l :
  forallb client_event l = true -> loading_writes l = [].
Proof.
  induction l as [|[] l IH]; cbn; try done.
Qed.

(** What a call of [api] leaves alone, and what it adds to the trace. *)
Lemma api_run_frame cfg w o w' :
  api_run backend cfg w o w' ->
  isLoading w' = isLoading w /\
  user w' = user w /\
  exists new,
    events w' = events w ++ new /\
    forallb client_event new = true /\
    first_sends new = if _retry cfg then [] else [prepare (localStorage w) cfg].
Proof.
  intros Hrun.
  inversion Hrun as
    [cfg0 w0 sent o0 Hsent Hs Hr
    |cfg0 w0 sent e Hsent Hr Ht
    |cfg0 w0 sent e rt reason Hsent Hr Hrt Ht Hrf
    |cfg0 w0 sent e rt ok reason Hsent Hr Hrt Ht Hrf Htok
    |cfg0 w0 sent e rt ok a r0 o0 w0' Hsent Hr Hrt Ht Hrf Htok Hsub]; subst.
  - do 2 (split; [done|]). eexists. split; [reflexivity|]. cbn.
    by rewrite prepare_retry.
  - do 2 (split; [done|]). eexists. split; [apply events_logged_out_first|]. cbn.
    apply refreshable_Some in Hr as (Hs & _ & Hm).
    apply settle_rejected_config in Hs. rewrite Hs in Hm.
    rewrite Hm. rewrite prepare_retry in Hm. by rewrite Hm.
  - do 2 (split; [done|]). eexists. split; [apply events_logged_out_refresh|]. cbn.
    apply refreshable_Some in Hr as (Hs & _ & Hm).
    apply settle_rejected_config in Hs. rewrite Hs in Hm.
    rewrite Hm. rewrite prepare_retry in Hm. by rewrite Hm.
  - do 2 (split; [done|]). eexists. split; [apply events_logged_out_refresh|]. cbn.
    apply refreshable_Some in Hr as (Hs & _ & Hm).
    apply settle_rejected_config in Hs. rewrite Hs in Hm.
    rewrite Hm. rewrite prepare_retry in Hm. by rewrite Hm.
  - apply api_run_marked in Hsub as [-> ->]; [|reflexivity].
    do 2 (split; [done|]). eexists. split; [apply events_resent|]. cbn.
    apply refreshable_Some in Hr as (Hs & _ & Hm).
    apply settle_rejected_config in Hs. rewrite Hs in Hm.
    rewrite Hm. rewrite prepare_retry in Hm. rewrite Hm.
    by rewrite prepare_retry.
Qed.

Lemma refreshUser_run w o w0 :
  api_get backend "/users/me" w = Some (o, w0) ->
  refreshUser backend w = Some (Fulfilled tt, after_fetch o w0).
Proof.
  intros Hget. unfold refreshUser, logout. run. rewrite Hget.
  destruct o as [r|error]; cbn.
  - unfold js_get. destruct (property (Some (response_data r)) "data"); run.
    + by rewrite <- app_assoc.
    + done.
  - by rewrite <- app_assoc.
Qed.

(** C9. On startup, a stored access credential makes [initAuth] run
    [refreshUser] once, to its end, and only then clear the loading flag:
    one fetch goes out, the flag is not written while it is under way, and
    the world [initAuth] leaves is the one [refreshUser] leaves with the flag
    cleared.  Without a stored credential the flag is cleared at once: no
    request, no user published. *)
Theorem startup_validates_stored_credential w :
  if truthy (localStorage w !! "access_token") then
    exists w1 new,
      refreshUser backend w = Some (Fulfilled tt, w1) /\
      events w1 = events w ++ new /\
      length (first_sends new) = 1 /\
      loading_writes new = [] /\
      isLoading w1 = isLoading w /\
      initAuth backend w = Some (Fulfilled tt, ready w1)
  else
    exists w',
      initAuth backend w = Some (Fulfilled tt, w') /\
      isLoading w' = false /\
      user w' = user w /\
      localStorage w' = localStorage w /\
      events w' = events w ++ [EvSetIsLoading false].
Proof.
  destruct (truthy (localStorage w !! "access_token")) eqn:Ht.
  - destruct (api_settles
                {| method := "get"; baseURL := None; url := "/users/me";
                   headers := ∅; data := None; _retry := false |} w)
      as (o & w0 & Hget).
    pose proof (refreshUser_run w o w0 Hget) as Hru.
    apply api_run_iff, api_run_frame in Hget as (Hload & _ & new & Hev & Hcl & Hfs).
    assert (Hshape : exists extra,
              events (after_fetch o w0) = events w0 ++ extra /\
              first_sends extra = [] /\ loading_writes extra = [] /\
              isLoading (after_fetch o w0) = isLoading w0).
    { unfold after_fetch. destruct o as [r|error]; [|by eexists].
      destruct (property _ _); by eexists. }
    destruct Hshape as (extra & Hev' & Hfs' & Hlw' & Hload').
    exists (after_fetch o w0), (new ++ extra).
    split; [exact Hru|]. split; [by rewrite Hev', Hev, app_assoc|].
    split; [by rewrite first_sends_app, Hfs, Hfs'|].
    split; [by rewrite loading_writes_app, Hlw', (client_events_no_loading _ Hcl)|].
    split; [congruence|].
    unfold initAuth. run. rewrite Ht, Hru. reflexivity.
  - exists (ready w). split; [|done].
    unfold initAuth. run. rewrite Ht. reflexivity.
Qed.

End Facts.

(** ** The claims at concrete inputs *)

Lemma success_passes_through_witness :
  let sent := prepare (localStorage Examples.signed_in) Examples.get_podcasts in
  (Examples.welcoming (events Examples.signed_in) sent = Replied Examples.podcast_list /\
   validateStatus (status Examples.podcast_list) = true) /\
  exists w',
    api Examples.welcoming Examples.get_podcasts Examples.signed_in =
      Some (Fulfilled Examples.podcast_list, w') /\
    localStorage w' = localStorage Examples.signed_in /\
    href w' = href Examples.signed_in /\
    events w' = events Examples.signed_in ++ [EvRequest Api sent].
Proof.
  split; [split; reflexivity|].
  apply (success_passes_through Examples.welcoming Examples.get_podcasts
           Examples.signed_in Examples.podcast_list); reflexivity.
Defined.

Lemma other_failures_propagate_witness :
  let sent := prepare (localStorage Examples.signed_in) Examples.get_podcasts in
  let e := {| config := sent; response := Some Examples.server_error |} in
  (settle sent (Examples.failing (events Examples.signed_in) sent) = Rejected (AxiosErr e) /\
   (is_401 e = false \/ _retry Examples.get_podcasts = true)) /\
  exists w',
    api Examples.failing Examples.get_podcasts Examples.signed_in =
      Some (Rejected (AxiosErr e), w') /\
    localStorage w' = localStorage Examples.signed_in /\
    href w' = href Examples.signed_in /\
    events w' = events Examples.signed_in ++ [EvRequest Api sent].
Proof.
  split; [split; [reflexivity|left; reflexivity]|].
  apply (other_failures_propagate Examples.failing Examples.get_podcasts
           Examples.signed_in); [reflexivity|left; reflexivity].
Defined.

Lemma marked_401_is_only_surfaced_witness :
  let sent := prepare (localStorage Examples.stored) Examples.resent in
  (_retry Examples.resent = true /\
   Examples.refusing (events Examples.stored) sent = Replied Examples.unauthorized /\
   status Examples.unauthorized = 401%Z) /\
  exists w',
    api Examples.refusing Examples.resent Examples.stored =
      Some (Rejected (AxiosErr {| config := sent; response := Some Examples.unauthorized |}), w') /\
    localStorage w' = localStorage Examples.stored /\
    href w' = href Examples.stored /\
    events w' = events Examples.stored ++ [EvRequest Api sent].
Proof.
  split; [repeat split; reflexivity|].
  apply (marked_401_is_only_surfaced Examples.refusing Examples.resent
           Examples.stored Examples.unauthorized); reflexivity.
Defined.

(** C6 as stated does not hold: the resend of [get_podcasts] is answered 401
    while it carries the marker, and afterwards both keys still hold the pair
    the refresh wrote and the page has not been sent anywhere. *)
Lemma second_401_keeps_the_session :
  exists e w',
    api Examples.refusing Examples.get_podcasts Examples.signed_in =
      Some (Rejected (AxiosErr e), w') /\
    is_401 e = true /\
    _retry (config e) = true /\
    localStorage w' !! "access_token" = Some "a2" /\
    localStorage w' !! "refresh_token" = Some "r2" /\
    href w' = "/dashboard" /\
    navigations (events w') = [] /\
    ~ (localStorage w' !! "access_token" = None /\
       localStorage w' !! "refresh_token" = None /\
       navigations (events w') = ["/auth"]).
Proof.
  exists {| config := Examples.second_send; response := Some Examples.unauthorized |},
         Examples.after_resend.
  repeat split; try (vm_compute; reflexivity).
  intros (H & _). vm_compute in H. discriminate H.
Defined.

Lemma no_refresh_token_logs_out_witness :
  let sent := prepare (localStorage Examples.access_only) Examples.get_podcasts in
  (_retry Examples.get_podcasts = false /\
   Examples.locked (events Examples.access_only) sent = Replied Examples.unauthorized /\
   status Examples.unauthorized = 401%Z /\
   truthy (localStorage Examples.access_only !! "refresh_token") = false) /\
  exists w',
    api Examples.locked Examples.get_podcasts Examples.access_only =
      Some (Rejected (AxiosErr (marked {| config := sent;
                                          response := Some Examples.unauthorized |})), w') /\
    localStorage w' !! "access_token" = None /\
    localStorage w' !! "refresh_token" = None /\
    href w' = "/auth" /\
    events w' = events Examples.access_only ++
                  [EvRequest Api sent; EvRetryMarked (with_retry true sent);
                   EvNavigate "/auth"].
Proof.
  split; [repeat split; reflexivity|].
  apply (no_refresh_token_logs_out Examples.locked Examples.get_podcasts
           Examples.access_only Examples.unauthorized); reflexivity.
Defined.

Lemma refresh_failure_logs_out_witness :
  let sent := Examples.first_send in
  let reason :=
    AxiosErr {| config := refresh_request "r1"; response := Some Examples.unauthorized |} in
  (_retry Examples.get_podcasts = false /\
   Examples.locked (events Examples.signed_in) sent = Replied Examples.unauthorized /\
   status Examples.unauthorized = 401%Z /\
   localStorage Examples.signed_in !! "refresh_token" = Some "r1" /\
   "r1" ≠ "" /\
   settle (refresh_request "r1")
     (Examples.locked (events (first_failed sent Examples.signed_in)) (refresh_request "r1"))
     = Rejected reason) /\
  exists w',
    api Examples.locked Examples.get_podcasts Examples.signed_in = Some (Rejected reason, w') /\
    (exists e, reason = AxiosErr e /\ config e = refresh_request "r1") /\
    reason ≠ AxiosErr {| config := sent; response := Some Examples.unauthorized |} /\
    reason ≠ AxiosErr (marked {| config := sent; response := Some Examples.unauthorized |}) /\
    localStorage w' !! "access_token" = None /\
    localStorage w' !! "refresh_token" = None /\
    href w' = "/auth" /\
    events w' = events Examples.signed_in ++
                  [EvRequest Api sent; EvRetryMarked (with_retry true sent);
                   EvRequest Raw (refresh_request "r1"); EvNavigate "/auth"].
Proof.
  split; [repeat split; try reflexivity; discriminate|].
  apply (refresh_failure_logs_out Examples.locked Examples.get_podcasts
           Examples.signed_in Examples.unauthorized "r1");
    try reflexivity; discriminate.
Defined.

Lemma refresh_success_resends_witness :
  let sent := Examples.first_send in
  let stored := Examples.stored in
  let resent := with_header "Authorization" ("Bearer " +:+ "a2") (with_retry true sent) in
  let sent_again := prepare (localStorage stored) resent in
  (_retry Examples.get_podcasts = false /\
   Examples.rotating (events Examples.signed_in) sent = Replied Examples.unauthorized /\
   status Examples.unauthorized = 401%Z /\
   localStorage Examples.signed_in !! "refresh_token" = Some "r1" /\
   "r1" ≠ "" /\
   Examples.rotating (events (first_failed sent Examples.signed_in)) (refresh_request "r1")
     = Replied Examples.fresh_pair /\
   validateStatus (status Examples.fresh_pair) = true /\
   read_tokens (response_data Examples.fresh_pair) = inr (Some (JStr "a2"), Some (JStr "r2"))) /\
  localStorage stored =
    <["refresh_token" := "r2"]> (<["access_token" := "a2"]> (localStorage Examples.signed_in)) /\
  headers resent !! "Authorization" = Some ("Bearer " +:+ "a2") /\
  headers sent_again !! "Authorization" = Some ("Bearer " +:+ "a2") /\
  _retry sent_again = true /\
  api Examples.rotating Examples.get_podcasts Examples.signed_in =
    api Examples.rotating resent stored /\
  exists w',
    api Examples.rotating Examples.get_podcasts Examples.signed_in =
      Some (settle sent_again (Examples.rotating (events stored) sent_again), w') /\
    localStorage w' !! "access_token" = Some "a2" /\
    localStorage w' !! "refresh_token" = Some "r2" /\
    events w' = events Examples.signed_in ++
                  [EvRequest Api sent; EvRetryMarked (with_retry true sent);
                   EvRequest Raw (refresh_request "r1"); EvRequest Api sent_again].
Proof.
  split; [repeat split; try reflexivity; discriminate|].
  apply (refresh_success_resends Examples.rotating Examples.get_podcasts
           Examples.signed_in Examples.unauthorized "r1" Examples.fresh_pair
           (Some (JStr "a2")) (Some (JStr "r2")));
    try reflexivity; discriminate.
Defined.

Lemma at_most_one_refresh_witness :
  let w := Examples.signed_in in
  let pre := [EvRequest Api Examples.first_send;
              EvRetryMarked (with_retry true Examples.first_send);
              EvRequest Raw (refresh_request "r1")] in
  let c := Examples.second_send in
  let r := Examples.unauthorized in
  let o := Rejected (AxiosErr {| config := c; response := Some r |}) in
  (api Examples.refusing Examples.get_podcasts w = Some (o, Examples.after_resend) /\
   _retry c = true /\
   Examples.refusing (events w ++ pre) c = Replied r /\
   status r = 401%Z) /\
  exists new post,
    events Examples.after_resend = events w ++ new /\
    new = pre ++ EvRequest Api c :: post /\
    length (raw_requests new) <= 1 /\
    marked_first false new = true /\
    length (first_sends new) <= 1 /\
    first_sends (drop 1 new) = [] /\
    post = [].
Proof.
  split; [repeat split; vm_compute; reflexivity|].
  destruct (at_most_one_refresh Examples.refusing Examples.get_podcasts
              Examples.signed_in
              (Rejected (AxiosErr {| config := Examples.second_send;
                                     response := Some Examples.unauthorized |}))
              Examples.after_resend)
    as (new & Hev & Hraw & Hmarked & Hfirst & Hdrop & Hlast).
  - vm_compute; reflexivity.
  - assert (Hnew : new =
      [EvRequest Api Examples.first_send;
       EvRetryMarked (with_retry true Examples.first_send);
       EvRequest Raw (refresh_request "r1")] ++
      EvRequest Api Examples.second_send :: []).
    { cbn in Hev. rewrite <- Hev. vm_compute; reflexivity. }
    destruct (Hlast _ Examples.second_send [] Examples.unauthorized Hnew)
      as [_ Hpost]; [vm_compute; reflexivity..|].
    exists new, []. by repeat split.
Defined.

Lemma refresh_call_is_bare_witness :
  let w := Examples.signed_in in
  let sent := Examples.first_send in
  let call := refresh_request "r1" in
  let reason := AxiosErr {| config := call; response := Some Examples.unauthorized |} in
  (_retry Examples.get_podcasts = false /\
   Examples.locked (events w) sent = Replied Examples.unauthorized /\
   status Examples.unauthorized = 401%Z /\
   localStorage w !! "refresh_token" = Some "r1" /\
   "r1" ≠ "" /\
   settle call (Examples.locked (events (first_failed sent w)) call) = Rejected reason) /\
  (forall v,
     axios_post Examples.locked "/api/v1/auth/refresh"
       (JObj [("refresh_token", JStr "r1")]) v =
       Some (settle call (Examples.locked (events v) call),
             emit_in (EvRequest Raw call) v)) /\
  headers call !! "Authorization" = None /\
  exists w',
    api Examples.locked Examples.get_podcasts w = Some (Rejected reason, w') /\
    events w' = events w ++
                  [EvRequest Api sent; EvRetryMarked (with_retry true sent);
                   EvRequest Raw call; EvNavigate "/auth"].
Proof.
  split; [repeat split; try reflexivity; discriminate|].
  destruct (refresh_call_is_bare Examples.locked Examples.get_podcasts
              Examples.signed_in Examples.unauthorized "r1")
    as (Hbare & Hheader & o & w' & post & Hrun & Hev & _ & Hrejected);
    [reflexivity|reflexivity|reflexivity|reflexivity|discriminate|].
  split; [exact Hbare|]. split; [exact Hheader|].
  destruct (Hrejected _ eq_refl) as [-> ->].
  exists w'. split; [exact Hrun|exact Hev].
Defined.

Lemma token_read_at_send_time_witness :
  let w := Examples.signed_in in
  let w' := Examples.after_resend in
  api Examples.rotating Examples.get_podcasts w =
    Some (Fulfilled Examples.podcast_list, w') /\
  exists new first again,
    events w' = events w ++ new /\
    api_requests new = [first; again] /\
    localStorage w !! "access_token" = Some "a1" /\
    first = with_header "Authorization" "Bearer a1"
              (mergeConfig api_defaults Examples.get_podcasts) /\
    headers first !! "Authorization" = Some "Bearer a1" /\
    localStorage w' !! "access_token" = Some "a2" /\
    again = with_header "Authorization" "Bearer a2"
              (mergeConfig api_defaults
                 (with_header "Authorization" "Bearer a2" (with_retry true first))) /\
    headers again !! "Authorization" = Some "Bearer a2".
Proof.
  split; [vm_compute; reflexivity|].
  destruct (token_read_at_send_time Examples.rotating Examples.get_podcasts
              Examples.signed_in (Fulfilled Examples.podcast_list)
              Examples.after_resend)
    as (new & Hev & [Hone|Htwo]).
  - vm_compute; reflexivity.
  - exfalso. destruct Hone as (first & Hreq & _).
    cbn in Hev. rewrite <- Hev in Hreq. vm_compute in Hreq. discriminate Hreq.
  - destruct Htwo as (first & again & a & r & Hreq & Hfirst & Hst & Hagain).
    assert (Ha : a = "a2").
    { apply (f_equal (lookup "access_token")) in Hst.
      rewrite lookup_insert_ne, lookup_insert_eq in Hst by done.
      vm_compute in Hst. by injection Hst as <-. }
    subst a.
    replace (localStorage Examples.signed_in !! "access_token")
      with (Some "a1") in Hfirst by reflexivity.
    replace (localStorage Examples.after_resend !! "access_token")
      with (Some "a2") in Hagain by reflexivity.
    rewrite decide_False in Hfirst by discriminate.
    rewrite decide_False in Hagain by discriminate.
    destruct Hfirst as [Hfirst Hh1], Hagain as [Hagain Hh2].
    exists new, first, again. by repeat split.
Defined.

(** C8 as stated does not hold: with nothing in storage, a request that
    brings its own [Authorization] header goes out with that header. *)
Lemma own_header_is_sent_without_token :
  localStorage Examples.signed_out !! "access_token" = None /\
  exists o w' sent,
    api Examples.welcoming Examples.get_with_own_header Examples.signed_out = Some (o, w') /\
    events w' = [EvRequest Api sent] /\
    headers sent !! "Authorization" = Some "Bearer stale" /\
    headers sent !! "Authorization" ≠ None.
Proof.
  split; [reflexivity|].
  exists (Fulfilled Examples.podcast_list),
         (emit_in (EvRequest Api (prepare ∅ Examples.get_with_own_header)) Examples.signed_out),
         (prepare ∅ Examples.get_with_own_header).
  repeat split; try (vm_compute; reflexivity).
  vm_compute. discriminate.
Defined.

(** The two branches of [initAuth], and the stored empty string, which the
    test [if (token)] takes for no credential. *)
Example startup_signed_out :
  initAuth Examples.welcoming Examples.signed_out =
    Some (Fulfilled tt, ready Examples.signed_out).
Proof. vm_compute. reflexivity. Qed.

Example startup_empty_token :
  initAuth Examples.welcoming (Examples.page (<["access_token" := ""]> ∅)) =
    Some (Fulfilled tt, ready (Examples.page (<["access_token" := ""]> ∅))).
Proof. vm_compute. reflexivity. Qed.

Example startup_signed_in :
  exists w1,
    refreshUser Examples.rotating Examples.signed_in = Some (Fulfilled tt, w1) /\
    initAuth Examples.rotating Examples.signed_in = Some (Fulfilled tt, ready w1) /\
    localStorage w1 !! "access_token" = Some "a2" /\
    loading_writes (events (ready w1)) = [false] /\
    length (first_sends (events w1)) = 1.
Proof.
  eexists. split; [vm_compute; reflexivity|].
  repeat split; vm_compute; reflexivity.
Qed.

(** * More of the client and of the session store *)

Section MoreFacts.

Context (backend : list Event -> Config -> Wire).

(** ** The request interceptor *)

(** The request interceptor reads storage and writes nothing; of the request
    it changes the [Authorization] header and nothing else. *)
Theorem interceptor_touches_only_authorization config w :
  exists sent,
    request_onFulfilled config w = Some (Fulfilled sent, w) /\
    method sent = method config /\
    baseURL sent = baseURL config /\
    url sent = url config /\
    data sent = data config /\
    _retry sent = _retry config /\
    forall name, name ≠ "Authorization" ->
      headers sent !! name = headers config !! name.
Proof.
  exists (authorize (localStorage w) config).
  split; [apply request_onFulfilled_run|].
  unfold authorize. destruct (truthy _); cbn; repeat split; try done.
  intros name Hne. by rewrite lookup_insert_ne.
Qed.

(** ** Every run of [api] *)

(** The only request that ever leaves through the bare client is the POST
    of the refresh token found in storage, as [{ refresh_token }], to
    [/api/v1/auth/refresh], with no base URL in front. *)
Theorem refresh_call_posts_stored_token cfg w o w' :
  api backend cfg w = Some (o, w') ->
  exists new,
    events w' = events w ++ new /\
    forall c, c ∈ raw_requests new ->
      exists rt,
        localStorage w !! "refresh_token" = Some rt /\
        rt ≠ "" /\
        method c = "post" /\
        baseURL c = None /\
        url c = "/api/v1/auth/refresh" /\
        data c = Some (JObj [("refresh_token", JStr rt)]) /\
        _retry c = false.
Proof.
  intros Hrun. apply api_run_iff in Hrun.
  assert (Hne : forall rt, truthy (Some rt) = true -> rt ≠ "").
  { intros rt Ht ->. discriminate Ht. }
  inversion Hrun as
    [cfg0 w0 sent o0 Hsent Hs Hr
    |cfg0 w0 sent e Hsent Hr Ht
    |cfg0 w0 sent e rt reason Hsent Hr Hrt Ht Hrf
    |cfg0 w0 sent e rt ok reason Hsent Hr Hrt Ht Hrf Htok
    |cfg0 w0 sent e rt ok a r0 o0 w0' Hsent Hr Hrt Ht Hrf Htok Hsub]; subst.
  - eexists. split; [reflexivity|]. cbn. intros c Hc. by apply elem_of_nil in Hc.
  - eexists. split; [apply events_logged_out_first|]. cbn.
    intros c Hc. by apply elem_of_nil in Hc.
  - eexists. split; [apply events_logged_out_refresh|]. cbn.
    intros c Hc. apply list_elem_of_singleton in Hc as ->. exists rt. auto 10.
  - eexists. split; [apply events_logged_out_refresh|]. cbn.
    intros c Hc. apply list_elem_of_singleton in Hc as ->. exists rt. auto 10.
  - apply api_run_marked in Hsub as [-> ->]; [|reflexivity].
    eexists. split; [apply events_resent|]. cbn.
    intros c Hc. apply list_elem_of_singleton in Hc as ->. exists rt. auto 10.
Qed.

(** [api] never touches a storage key other than its two. *)
Theorem other_keys_untouched cfg w o w' key :
  api backend cfg w = Some (o, w') ->
  key ≠ "access_token" ->
  key ≠ "refresh_token" ->
  localStorage w' !! key = localStorage w !! key.
Proof.
  intros Hrun Ha Hr'. apply api_run_iff in Hrun.
  inversion Hrun as
    [cfg0 w0 sent o0 Hsent Hs Hr
    |cfg0 w0 sent e Hsent Hr Ht
    |cfg0 w0 sent e rt reason Hsent Hr Hrt Ht Hrf
    |cfg0 w0 sent e rt ok reason Hsent Hr Hrt Ht Hrf Htok
    |cfg0 w0 sent e rt ok a r0 o0 w0' Hsent Hr Hrt Ht Hrf Htok Hsub]; subst; cbn.
  - done.
  - by rewrite !lookup_delete_ne.
  - by rewrite !lookup_delete_ne.
  - by rewrite !lookup_delete_ne.
  - apply api_run_marked in Hsub as [-> ->]; [|reflexivity]. cbn.
    by rewrite !lookup_insert_ne.
Qed.

(** The two keys change together, and the redirect goes with their removal.
    A call of [api] ends in one of three ways: storage and location as they
    were, with no refresh call; both keys removed, the page sent to [/auth]
    (once) and the caller given a rejection; or, after the one refresh call
    has fulfilled, both keys overwritten with the two values of its reply
    (as strings) and no redirect.  A call that fulfils never redirects. *)
Theorem session_pair_changes_together cfg w o w' :
  api backend cfg w = Some (o, w') ->
  let sent := prepare (localStorage w) cfg in
  exists new,
    events w' = events w ++ new /\
    ((localStorage w' = localStorage w /\
      href w' = href w /\
      navigations new = [] /\
      raw_requests new = []) \/
     (localStorage w' !! "access_token" = None /\
      localStorage w' !! "refresh_token" = None /\
      href w' = "/auth" /\
      navigations new = ["/auth"] /\
      exists reason, o = Rejected reason) \/
     (exists rt ok a r,
        localStorage w !! "refresh_token" = Some rt /\
        settle (refresh_request rt)
          (backend (events (first_failed sent w)) (refresh_request rt)) = Fulfilled ok /\
        read_tokens (response_data ok) = inr (a, r) /\
        localStorage w' =
          <["refresh_token" := ToString r]>
            (<["access_token" := ToString a]> (localStorage w)) /\
        localStorage w' !! "access_token" = Some (ToString a) /\
        localStorage w' !! "refresh_token" = Some (ToString r) /\
        href w' = href w /\
        navigations new = [] /\
        raw_requests new = [refresh_request rt])).
Proof.
  intros Hrun sent. apply api_run_iff in Hrun.
  inversion Hrun as
    [cfg0 w0 sent0 o0 Hsent Hs Hr
    |cfg0 w0 sent0 e Hsent Hr Ht
    |cfg0 w0 sent0 e rt reason Hsent Hr Hrt Ht Hrf
    |cfg0 w0 sent0 e rt ok reason Hsent Hr Hrt Ht Hrf Htok
    |cfg0 w0 sent0 e rt ok a r0 o0 w0' Hsent Hr Hrt Ht Hrf Htok Hsub]; subst.
  - eexists. split; [reflexivity|]. left. done.
  - eexists. split; [apply events_logged_out_first|]. right; left.
    split; [apply logged_out_access|]. split; [apply logged_out_refresh|]. eauto.
  - eexists. split; [apply events_logged_out_refresh|]. right; left.
    split; [apply logged_out_access|]. split; [apply logged_out_refresh|]. eauto.
  - eexists. split; [apply events_logged_out_refresh|]. right; left.
    split; [apply logged_out_access|]. split; [apply logged_out_refresh|]. eauto.
  - apply api_run_marked in Hsub as [-> ->]; [|reflexivity].
    eexists. split; [apply events_resent|]. right; right.
    exists rt, ok, a, r0. do 4 (split; [done|]).
    split; [apply store_tokens_access|]. split; [apply store_tokens_refresh|]. done.
Qed.

Lemma api_first_event cfg w o w' :
  api_run backend cfg w o w' ->
  exists rest,
    events w' = events w ++ EvRequest Api (prepare (localStorage w) cfg) :: rest.
Proof.
  intros Hrun.
  inversion Hrun as
    [cfg0 w0 sent o0 Hsent Hs Hr
    |cfg0 w0 sent e Hsent Hr Ht
    |cfg0 w0 sent e rt reason Hsent Hr Hrt Ht Hrf
    |cfg0 w0 sent e rt ok reason Hsent Hr Hrt Ht Hrf Htok
    |cfg0 w0 sent e rt ok a r0 o0 w0' Hsent Hr Hrt Ht Hrf Htok Hsub]; subst.
  - by eexists.
  - eexists. apply events_logged_out_first.
  - eexists. apply events_logged_out_refresh.
  - eexists. apply events_logged_out_refresh.
  - apply api_run_marked in Hsub as [-> ->]; [|reflexivity].
    eexists. apply events_resent.
Qed.

Lemma prepare_token store cfg token :
  store !! "access_token" = Some token ->
  token ≠ "" ->
  headers (prepare store cfg) !! "Authorization" = Some ("Bearer " +:+ token).
Proof.
  intros Hst Hne. unfold prepare, authorize. rewrite Hst.
  rewrite truthy_nonempty by done. cbn. apply lookup_insert_eq.
Qed.

Lemma prepare_no_token store cfg :
  truthy (store !! "access_token") = false ->
  prepare store cfg = mergeConfig api_defaults cfg.
Proof. intros Ht. unfold prepare, authorize. by rewrite Ht. Qed.

Lemma merged_header_other (h : gmap string string) name :
  ((h ∪ default_headers api_defaults) ∪ default_headers api_defaults) !! name =
    (h ∪ default_headers api_defaults) !! name.
Proof.
  rewrite (lookup_union (h ∪ _)).
  destruct ((h ∪ default_headers api_defaults) !! name) as [v|] eqn:E.
  - by destruct (default_headers api_defaults !! name).
  - apply lookup_union_None in E as [_ ->]. done.
Qed.

(** The request of the resend is the request of the first send with the
    marker set and the [Authorization] header replaced: same method, base
    URL, path and body, same headers otherwise. *)
Lemma prepare_resend store store' cfg a :
  let first := prepare store cfg in
  let again := prepare store' (resend_of first a) in
  method again = method first /\
  baseURL again = baseURL first /\
  url again = url first /\
  data again = data first /\
  _retry again = true /\
  forall name, name ≠ "Authorization" ->
    headers again !! name = headers first !! name.
Proof.
  cbn. unfold prepare.
  assert (Hbase : forall c, baseURL (mergeConfig api_defaults (mergeConfig api_defaults c)) =
                            baseURL (mergeConfig api_defaults c)).
  { intros c. cbn. by destruct (baseURL c). }
  unfold authorize.
  destruct (truthy (store' !! "access_token")), (truthy (store !! "access_token")); cbn;
    repeat split; try (by destruct (baseURL cfg));
    intros name Hne; rewrite ?lookup_insert_ne by done;
    rewrite !(lookup_union (<[_:=_]> _)), ?lookup_insert_ne by done;
    rewrite <- ?lookup_union; try apply merged_header_other.
Qed.

(** A call of [api] puts one request on the wire through the instance, or
    two; the second repeats the first with the marker set and with
    [Authorization: Bearer <the access token of the refresh reply>], and with
    nothing else changed. *)
Theorem resend_repeats_the_request cfg w o w' :
  api backend cfg w = Some (o, w') ->
  let first := prepare (localStorage w) cfg in
  exists new,
    events w' = events w ++ new /\
    (api_requests new = [first] \/
     exists again rt ok a r,
       api_requests new = [first; again] /\
       localStorage w !! "refresh_token" = Some rt /\
       settle (refresh_request rt)
         (backend (events (first_failed first w)) (refresh_request rt)) = Fulfilled ok /\
       read_tokens (response_data ok) = inr (a, r) /\
       headers again !! "Authorization" = Some ("Bearer " +:+ ToString a) /\
       method again = method first /\
       baseURL again = baseURL first /\
       url again = url first /\
       data again = data first /\
       _retry again = true /\
       forall name, name ≠ "Authorization" ->
         headers again !! name = headers first !! name).
Proof.
  intros Hrun first. apply api_run_iff in Hrun.
  inversion Hrun as
    [cfg0 w0 sent o0 Hsent Hs Hr
    |cfg0 w0 sent e Hsent Hr Ht
    |cfg0 w0 sent e rt reason Hsent Hr Hrt Ht Hrf
    |cfg0 w0 sent e rt ok reason Hsent Hr Hrt Ht Hrf Htok
    |cfg0 w0 sent e rt ok a r0 o0 w0' Hsent Hr Hrt Ht Hrf Htok Hsub]; subst.
  - eexists. split; [reflexivity|]. by left.
  - eexists. split; [apply events_logged_out_first|]. by left.
  - eexists. split; [apply events_logged_out_refresh|]. by left.
  - eexists. split; [apply events_logged_out_refresh|]. by left.
  - apply api_run_marked in Hsub as [-> ->]; [|reflexivity].
    eexists. split; [apply events_resent|]. right.
    eexists _, rt, ok, a, r0. split; [reflexivity|]. do 3 (split; [done|]).
    split; [apply (resend_header _ _ a), store_tokens_access|]. apply prepare_resend.
Qed.

(** ** Replies of the refresh endpoint that do not carry a pair *)

Lemma first_401_refreshable cfg w r :
  let sent := prepare (localStorage w) cfg in
  _retry cfg = false ->
  backend (events w) sent = Replied r ->
  status r = 401%Z ->
  refreshable (settle sent (backend (events w) sent)) =
    Some {| config := sent; response := Some r |}.
Proof.
  intros sent Hm Hb H401. rewrite Hb. apply refreshable_401; [done|].
  unfold sent. by rewrite prepare_retry.
Qed.

Lemma settle_fulfilled c ok :
  validateStatus (status ok) = true -> settle c (Replied ok) = Fulfilled ok.
Proof. intros Hv. cbn. by rewrite Hv. Qed.



(** A refresh reply with a success status whose [data] object lacks the two
    members is taken as a pair all the same: both keys are set to the string
    ["undefined"] and the request is sent again with
    [Authorization: Bearer undefined]. *)
Theorem missing_token_members_are_stored_as_undefined cfg w r rt ok fields members :
  let sent := prepare (localStorage w) cfg in
  _retry cfg = false ->
  backend (events w) sent = Replied r ->
  status r = 401%Z ->
  localStorage w !! "refresh_token" = Some rt ->
  rt ≠ "" ->
  backend (events (first_failed sent w)) (refresh_request rt) = Replied ok ->
  validateStatus (status ok) = true ->
  response_data ok = JObj fields ->
  own_property "data" fields = Some (JObj members) ->
  own_property "access_token" members = None ->
  own_property "refresh_token" members = None ->
  exists o w' again,
    api backend cfg w = Some (o, w') /\
    localStorage w' !! "access_token" = Some "undefined" /\
    localStorage w' !! "refresh_token" = Some "undefined" /\
    events w' = events w ++ [EvRequest Api sent;
                             EvRetryMarked (with_retry true sent);
                             EvRequest Raw (refresh_request rt);
                             EvRequest Api again] /\
    headers again !! "Authorization" = Some "Bearer undefined".
Proof.
  intros sent Hm Hb H401 Hrt Hne Hrb Hv Hbody Hdata Ha Hr.
  assert (Htok : read_tokens (response_data ok) = inr (None, None)).
  { unfold read_tokens, property. by rewrite Hbody, Hdata, Ha, Hr. }
  set (stored := store_tokens (ToString None) (ToString None) (refresh_sent sent rt w)).
  set (again := prepare (localStorage stored) (resend_of sent None)).
  exists (settle again (backend (events stored) again)),
         (emit_in (EvRequest Api again) stored), again.
  split; [|split; [apply store_tokens_access|split; [apply store_tokens_refresh|split]]].
  - apply api_run_iff.
    eapply run_resend with (sent := sent) (rt := rt) (ok := ok);
      [reflexivity|by apply first_401_refreshable|exact Hrt|by apply truthy_nonempty
      | |exact Htok|].
    + rewrite Hrb. by apply settle_fulfilled.
    + eapply run_settled; [reflexivity|reflexivity|].
      apply marked_not_refreshable. unfold again. by rewrite prepare_retry.
  - apply events_resent.
  - apply (resend_header _ sent None), store_tokens_access.
Qed.

(** A pair obtained by a refresh serves the next request too: once a call
    of [api] has refreshed, any later call starts by sending its request with
    the new access token. *)
Theorem refreshed_token_serves_next_request cfg w r rt ok a r' next :
  let sent := prepare (localStorage w) cfg in
  _retry cfg = false ->
  backend (events w) sent = Replied r ->
  status r = 401%Z ->
  localStorage w !! "refresh_token" = Some rt ->
  rt ≠ "" ->
  backend (events (first_failed sent w)) (refresh_request rt) = Replied ok ->
  validateStatus (status ok) = true ->
  read_tokens (response_data ok) = inr (a, r') ->
  ToString a ≠ "" ->
  exists o w',
    api backend cfg w = Some (o, w') /\
    exists o2 w2 sent2 rest,
      api backend next w' = Some (o2, w2) /\
      events w2 = events w' ++ EvRequest Api sent2 :: rest /\
      headers sent2 !! "Authorization" = Some ("Bearer " +:+ ToString a).
Proof.
  intros sent Hm Hb H401 Hrt Hne Hrb Hv Htok Ha.
  set (stored := store_tokens (ToString a) (ToString r') (refresh_sent sent rt w)).
  set (again := prepare (localStorage stored) (resend_of sent a)).
  exists (settle again (backend (events stored) again)),
         (emit_in (EvRequest Api again) stored).
  split.
  - apply api_run_iff.
    eapply run_resend with (sent := sent) (rt := rt) (ok := ok);
      [reflexivity|by apply first_401_refreshable|exact Hrt|by apply truthy_nonempty
      | |exact Htok|].
    + rewrite Hrb. by apply settle_fulfilled.
    + eapply run_settled; [reflexivity|reflexivity|].
      apply marked_not_refreshable. unfold again. by rewrite prepare_retry.
  - destruct (api_settles backend next (emit_in (EvRequest Api again) stored))
      as (o2 & w2 & Hnext).
    pose proof Hnext as Hrun. apply api_run_iff, api_first_event in Hrun as [rest Hev].
    exists o2, w2, (prepare (localStorage stored) next), rest.
    split; [exact Hnext|]. split; [exact Hev|].
    apply prepare_token; [apply store_tokens_access|done].
Qed.

(** ** The session store *)

Lemma api_get_config target : api_get backend target = api backend (get_config target).
Proof. reflexivity. Qed.

Lemma api_rejects_as_is cfg w e :
  let sent := prepare (localStorage w) cfg in
  settle sent (backend (events w) sent) = Rejected (AxiosErr e) ->
  is_401 e = false ->
  api backend cfg w = Some (Rejected (AxiosErr e), emit_in (EvRequest Api sent) w).
Proof.
  intros sent Hs H401. apply api_run_iff.
  eapply run_settled; [reflexivity|exact Hs|]. cbn. by rewrite H401.
Qed.

Lemma api_fulfils_as_is cfg w r :
  let sent := prepare (localStorage w) cfg in
  backend (events w) sent = Replied r ->
  validateStatus (status r) = true ->
  api backend cfg w = Some (Fulfilled r, emit_in (EvRequest Api sent) w).
Proof.
  intros sent Hb Hv. apply api_run_iff.
  eapply run_settled; [reflexivity| |reflexivity].
  fold sent. rewrite Hb. by apply settle_fulfilled.
Qed.

Lemma login_run access_token refresh_token w :
  login backend access_token refresh_token w =
    refreshUser backend (store_tokens access_token refresh_token w).
Proof. reflexivity. Qed.

Lemma after_fetch_rejected reason w :
  let w1 := after_fetch (Rejected reason) w in
  localStorage w1 !! "access_token" = None /\
  localStorage w1 !! "refresh_token" = None /\
  user w1 = Some JNull /\
  href w1 = href w /\
  isLoading w1 = isLoading w /\
  events w1 = events w ++ [EvConsoleError reason; EvSetUser (Some JNull)].
Proof.
  cbn. split; [|split; [apply lookup_delete_eq|done]].
  rewrite lookup_delete_ne by done. apply lookup_delete_eq.
Qed.

(** A failure of the profile fetch that is not a 401 (a server error, no
    reply at all) logs the user out: [refreshUser] removes both keys and
    publishes no user.  It does so quietly: no redirect, no refresh call, and
    its own promise fulfils. *)
Theorem failed_profile_fetch_logs_out w e :
  let sent := prepare (localStorage w) (get_config "/users/me") in
  settle sent (backend (events w) sent) = Rejected (AxiosErr e) ->
  is_401 e = false ->
  exists w1,
    refreshUser backend w = Some (Fulfilled tt, w1) /\
    localStorage w1 !! "access_token" = None /\
    localStorage w1 !! "refresh_token" = None /\
    user w1 = Some JNull /\
    href w1 = href w /\
    events w1 = events w ++ [EvRequest Api sent;
                             EvConsoleError (AxiosErr e);
                             EvSetUser (Some JNull)].
Proof.
  intros sent Hs H401.
  pose proof (api_rejects_as_is (get_config "/users/me") w e Hs H401) as Hget.
  rewrite <- api_get_config in Hget.
  exists (after_fetch (Rejected (AxiosErr e)) (emit_in (EvRequest Api sent) w)).
  split; [by apply refreshUser_run|].
  destruct (after_fetch_rejected (AxiosErr e) (emit_in (EvRequest Api sent) w))
    as (Ha & Hr & Hu & Hh & _ & Hev).
  do 4 (split; [done|]). rewrite Hev. cbn. by rewrite <- app_assoc.
Qed.

(** On a successful profile fetch [refreshUser] publishes whatever the body
    has under [data], [undefined] when the member is missing, and leaves the
    stored pair alone; a body that is [null] makes the read throw, and the
    user is logged out. *)
Theorem profile_fetch_publishes_data_member w r :
  let sent := prepare (localStorage w) (get_config "/users/me") in
  backend (events w) sent = Replied r ->
  validateStatus (status r) = true ->
  exists w1,
    refreshUser backend w = Some (Fulfilled tt, w1) /\
    match property (Some (response_data r)) "data" with
    | inr profile =>
        user w1 = profile /\
        localStorage w1 = localStorage w /\
        events w1 = events w ++ [EvRequest Api sent; EvSetUser profile]
    | inl reason =>
        user w1 = Some JNull /\
        localStorage w1 !! "access_token" = None /\
        localStorage w1 !! "refresh_token" = None /\
        events w1 = events w ++ [EvRequest Api sent;
                                 EvConsoleError reason;
                                 EvSetUser (Some JNull)]
    end.
Proof.
  intros sent Hb Hv.
  pose proof (api_fulfils_as_is (get_config "/users/me") w r Hb Hv) as Hget.
  rewrite <- api_get_config in Hget.
  exists (after_fetch (Fulfilled r) (emit_in (EvRequest Api sent) w)).
  split; [by apply refreshUser_run|].
  unfold after_fetch.
  destruct (property (Some (response_data r)) "data") as [reason|profile]; cbn.
  - split; [done|]. rewrite lookup_delete_ne by done. rewrite !lookup_delete_eq.
    by rewrite <- app_assoc.
  - by rewrite <- app_assoc.
Qed.

(** [refreshUser] never rejects, whatever the backend does, so the [catch]
    of a caller that awaits it is never entered on its account.  It ends by
    publishing a user, once, and in one of two states: the fetch fulfilled
    and the [data] member of its body is the user, or both keys are gone and
    the user is [null]. *)
Theorem refreshUser_always_fulfils w :
  exists w1 pre,
    refreshUser backend w = Some (Fulfilled tt, w1) /\
    events w1 = events w ++ pre ++ [EvSetUser (user w1)] /\
    isLoading w1 = isLoading w /\
    ((exists r w0 profile,
        api_get backend "/users/me" w = Some (Fulfilled r, w0) /\
        property (Some (response_data r)) "data" = inr profile /\
        user w1 = profile /\
        localStorage w1 = localStorage w0) \/
     (user w1 = Some JNull /\
      localStorage w1 !! "access_token" = None /\
      localStorage w1 !! "refresh_token" = None)).
Proof.
  destruct (api_settles backend (get_config "/users/me") w) as (o & w0 & Hget).
  rewrite <- api_get_config in Hget.
  pose proof (refreshUser_run backend w o w0 Hget) as Hru.
  pose proof Hget as Hrun. rewrite api_get_config in Hrun.
  apply api_run_iff, api_run_frame in Hrun as (Hload & _ & new & Hev & _ & _).
  exists (after_fetch o w0).
  assert (Hout : forall reason,
    events (after_fetch (Rejected reason) w0) =
      events w ++ (new ++ [EvConsoleError reason]) ++
        [EvSetUser (user (after_fetch (Rejected reason) w0))]).
  { intros reason. cbn. rewrite Hev, <- !app_assoc. done. }
  destruct o as [r|reason].
  - destruct (property (Some (response_data r)) "data") as [reason|profile] eqn:Hp.
    + exists (new ++ [EvConsoleError reason]).
      unfold after_fetch in *. rewrite Hp. cbn.
      split; [by rewrite Hru, Hp|]. split; [by rewrite Hev, <- !app_assoc|].
      split; [done|]. right. split; [done|].
      rewrite lookup_delete_ne by done. by rewrite !lookup_delete_eq.
    + exists new. unfold after_fetch in *. rewrite Hp in *. cbn.
      split; [exact Hru|]. split; [by rewrite Hev, <- !app_assoc|].
      split; [done|]. left. by exists r, w0, profile.
  - exists (new ++ [EvConsoleError reason]).
    split; [exact Hru|]. split; [apply Hout|]. split; [done|]. right.
    destruct (after_fetch_rejected reason w0) as (Ha & Hr & Hu & _). done.
Qed.


(** A [login] whose profile fetch fails with anything but a 401 leaves no
    pair behind: the tokens it has just stored are removed again and no user
    is published. *)
Theorem login_does_not_survive_failed_fetch access_token refresh_token w e :
  let ws := store_tokens access_token refresh_token w in
  let sent := prepare (localStorage ws) (get_config "/users/me") in
  settle sent (backend (events w) sent) = Rejected (AxiosErr e) ->
  is_401 e = false ->
  exists w1,
    login backend access_token refresh_token w = Some (Fulfilled tt, w1) /\
    localStorage w1 !! "access_token" = None /\
    localStorage w1 !! "refresh_token" = None /\
    user w1 = Some JNull /\
    href w1 = href w.
Proof.
  intros ws sent Hs H401. rewrite login_run. fold ws.
  pose proof (api_rejects_as_is (get_config "/users/me") ws e Hs H401) as Hget.
  rewrite <- api_get_config in Hget.
  exists (after_fetch (Rejected (AxiosErr e)) (emit_in (EvRequest Api sent) ws)).
  split; [by apply refreshUser_run|].
  destruct (after_fetch_rejected (AxiosErr e) (emit_in (EvRequest Api sent) ws))
    as (Ha & Hr & Hu & Hh & _). done.
Qed.

(** After [logout] a request gets no [Authorization] header from the
    client: it goes out as the descriptor and the instance defaults make it.
    [logout] itself removes the two keys and nothing else, publishes no user,
    contacts nobody and sends the page nowhere. *)
Theorem logout_then_request_is_anonymous w cfg :
  let merged := mergeConfig api_defaults cfg in
  exists w1,
    logout w = Some (Fulfilled tt, w1) /\
    localStorage w1 !! "access_token" = None /\
    localStorage w1 !! "refresh_token" = None /\
    (forall key, key ≠ "access_token" -> key ≠ "refresh_token" ->
       localStorage w1 !! key = localStorage w !! key) /\
    user w1 = Some JNull /\
    href w1 = href w /\
    events w1 = events w ++ [EvSetUser (Some JNull)] /\
    request_onFulfilled merged w1 = Some (Fulfilled merged, w1) /\
    headers merged !! "Authorization" = headers cfg !! "Authorization" /\
    exists o w2 rest,
      api backend cfg w1 = Some (o, w2) /\
      events w2 = events w1 ++ EvRequest Api merged :: rest.
Proof.
  intros merged.
  set (w1 := {| localStorage := delete "refresh_token" (delete "access_token" (localStorage w));
                href := href w; user := Some JNull; isLoading := isLoading w;
                events := events w ++ [EvSetUser (Some JNull)] |}).
  assert (Ha : localStorage w1 !! "access_token" = None).
  { cbn. rewrite lookup_delete_ne by done. apply lookup_delete_eq. }
  assert (Hp : prepare (localStorage w1) cfg = merged).
  { apply prepare_no_token. by rewrite Ha. }
  exists w1. split; [reflexivity|]. split; [exact Ha|].
  split; [apply lookup_delete_eq|].
  split; [intros key Hka Hkr; cbn; by rewrite !lookup_delete_ne|].
  do 3 (split; [done|]).
  split; [rewrite request_onFulfilled_run; unfold authorize; by rewrite Ha|].
  split.
  { cbn. rewrite lookup_union.
    replace (default_headers api_defaults !! "Authorization") with (@None string) by done.
    by destruct (headers cfg !! "Authorization"). }
  destruct (api_settles backend cfg w1) as (o & w2 & Hrun).
  pose proof Hrun as Hr. apply api_run_iff, api_first_event in Hr as [rest Hev].
  rewrite Hp in Hev. by exists o, w2, rest.
Qed.

End MoreFacts.

(** ** The topic selection of the onboarding page *)

(** A toggle never takes the selection past the limit of the plan: a
    selection within the limit stays within it (three topics on the free
    plan), and one already past it cannot grow. *)
Theorem toggleTopic_respects_limit selectedPlan topics selectedTopics topicId :
  length (toggleTopic selectedPlan topics selectedTopics topicId) <=
    Nat.max (length selectedTopics) (maxTopics selectedPlan topics).
Proof.
  unfold toggleTopic. repeat case_bool_decide.
  - etrans; [apply length_filter|lia].
  - rewrite length_app. cbn. lia.
  - lia.
Qed.

(** A toggle changes the membership of the toggled topic only: it leaves
    when it was selected, it enters when it was not and there is room, and
    every other topic stays in or out as it was. *)
Theorem toggleTopic_membership selectedPlan topics selectedTopics topicId t :
  t ∈ toggleTopic selectedPlan topics selectedTopics topicId <->
    if decide (t = topicId)
    then (topicId ∉ selectedTopics) /\
         length selectedTopics < maxTopics selectedPlan topics
    else t ∈ selectedTopics.
Proof.
  unfold toggleTopic.
  destruct (decide (t = topicId)) as [->|Hne];
    destruct (bool_decide (topicId ∈ selectedTopics)) eqn:Hin;
    [apply bool_decide_eq_true in Hin|apply bool_decide_eq_false in Hin
    |apply bool_decide_eq_true in Hin|apply bool_decide_eq_false in Hin].
  - rewrite list_elem_of_filter. tauto.
  - destruct (bool_decide (length selectedTopics < _)) eqn:Hroom;
      [apply bool_decide_eq_true in Hroom|apply bool_decide_eq_false in Hroom].
    + rewrite elem_of_app, list_elem_of_singleton. tauto.
    + tauto.
  - rewrite list_elem_of_filter. tauto.
  - destruct (bool_decide (length selectedTopics < _)); [|done].
    rewrite elem_of_app, list_elem_of_singleton. tauto.
Qed.

(** A selection without repetition stays without repetition. *)
Theorem toggleTopic_keeps_NoDup selectedPlan topics selectedTopics topicId :
  NoDup selectedTopics ->
  NoDup (toggleTopic selectedPlan topics selectedTopics topicId).
Proof.
  intros Hnd. unfold toggleTopic. repeat case_bool_decide.
  - by apply list.NoDup_filter.
  - apply list.NoDup_app. split; [done|]. split; [|apply list.NoDup_singleton].
    intros x Hx Hx'. apply list_elem_of_singleton in Hx'. by subst.
  - done.
Qed.

Lemma filter_not_in (l : list Z) (x : Z) : x ∉ l -> filter (fun t => t ≠ x) l = l.
Proof.
  induction l as [|y l IH]; [done|]. intros Hx.
  apply not_elem_of_cons in Hx as [Hne Hx].
  rewrite filter_cons_True by done. by rewrite IH.
Qed.

Lemma filter_out_perm (l : list Z) (x : Z) :
  NoDup l -> x ∈ l -> l ≡ₚ x :: filter (fun t => t ≠ x) l.
Proof.
  induction 1 as [|y l Hy Hnd IH]; intros Hin; [by apply elem_of_nil in Hin|].
  destruct (decide (y = x)) as [->|Hne].
  - rewrite filter_cons_False by naive_solver. by rewrite filter_not_in.
  - apply elem_of_cons in Hin as [->|Hin]; [done|].
    rewrite filter_cons_True by done. rewrite (IH Hin) at 1. apply Permutation_swap.
Qed.

(** Selecting a topic and toggling it again gives the selection back. *)
Theorem toggleTopic_select_then_deselect selectedPlan topics selectedTopics topicId :
  topicId ∉ selectedTopics ->
  length selectedTopics < maxTopics selectedPlan topics ->
  toggleTopic selectedPlan topics
    (toggleTopic selectedPlan topics selectedTopics topicId) topicId = selectedTopics.
Proof.
  intros Hout Hroom. unfold toggleTopic at 2.
  rewrite bool_decide_eq_false_2, bool_decide_eq_true_2 by done.
  unfold toggleTopic. rewrite bool_decide_eq_true_2 by set_solver.
  rewrite list.filter_app, filter_cons_False, filter_nil, app_nil_r by naive_solver.
  by apply filter_not_in.
Qed.

(** Deselecting a topic and selecting it again: the first toggle removes
    the topic, the second appends it at the end when the topics left are
    fewer than the limit of the plan, and changes nothing otherwise.  So a
    selection without repetition and within the limit keeps the same topics,
    with the toggled one moved to the end; a selection whose other topics
    already reach the limit (one made under a larger limit) loses the
    topic. *)
Theorem toggleTopic_deselect_then_select selectedPlan topics selectedTopics topicId :
  topicId ∈ selectedTopics ->
  let others := filter (fun t => t ≠ topicId) selectedTopics in
  let again :=
    toggleTopic selectedPlan topics
      (toggleTopic selectedPlan topics selectedTopics topicId) topicId in
  again =
    (if bool_decide (length others < maxTopics selectedPlan topics)
     then others ++ [topicId] else others) /\
  (NoDup selectedTopics ->
   length selectedTopics <= maxTopics selectedPlan topics ->
   again = others ++ [topicId] /\ again ≡ₚ selectedTopics) /\
  (maxTopics selectedPlan topics <= length others ->
   again = others /\ topicId ∉ again).
Proof.
  intros Hin others again.
  assert (Hstep : toggleTopic selectedPlan topics selectedTopics topicId = others).
  { unfold toggleTopic. by rewrite bool_decide_eq_true_2. }
  assert (Hout : topicId ∉ others).
  { unfold others. rewrite list_elem_of_filter. intros [Hn _]. by apply Hn. }
  assert (Hagain : again =
    if bool_decide (length others < maxTopics selectedPlan topics)
    then others ++ [topicId] else others).
  { unfold again. rewrite Hstep. unfold toggleTopic.
    by rewrite (bool_decide_eq_false_2 _ Hout). }
  split; [exact Hagain|]. split.
  - intros Hnd Hfit.
    pose proof (filter_out_perm _ _ Hnd Hin) as Hperm. fold others in Hperm.
    assert (Hlen : length others < maxTopics selectedPlan topics).
    { apply Permutation_length in Hperm. cbn in Hperm. lia. }
    rewrite Hagain, (bool_decide_eq_true_2 _ Hlen).
    split; [done|]. rewrite Permutation_app_comm. cbn. by symmetry.
  - intros Hfull. rewrite Hagain, bool_decide_eq_false_2 by lia. done.
Qed.

(** ** Pages that call the client *)

#[local] Hint Unfold handler_bind handler_ret page_then page_try lift ui : task.

Section PageFacts.

Context (backend : list Event -> Config -> Wire).



(** The success toast of [handleDeleteAvatar] can come with a logout: when
    the DELETE succeeds and the profile fetch that follows fails with
    anything but a 401, both keys are removed and no user is published, and
    the page still says the avatar was deleted. *)
Theorem avatar_toast_survives_failed_profile_fetch p r e :
  let w := browser p in
  let sent := prepare (localStorage w) (delete_config "/users/me/avatar") in
  let w1 := emit_in (EvRequest Api sent) w in
  let fetch := prepare (localStorage w1) (get_config "/users/me") in
  backend (events w) sent = Replied r ->
  validateStatus (status r) = true ->
  settle fetch (backend (events w1) fetch) = Rejected (AxiosErr e) ->
  is_401 e = false ->
  exists p',
    handleDeleteAvatar backend p = Some (Fulfilled tt, p') /\
    screen p' = deleting_screen (screen p)
                  (UiToastSuccess (JStr "Avatar deleted successfully!")) /\
    localStorage (browser p') !! "access_token" = None /\
    localStorage (browser p') !! "refresh_token" = None /\
    user (browser p') = Some JNull.
Proof.
  intros w sent w1 fetch Hb Hv Hs H401.
  pose proof (api_fulfils_as_is backend (delete_config "/users/me/avatar") w r Hb Hv)
    as Hdel.
  pose proof (api_rejects_as_is backend (get_config "/users/me") w1 e Hs H401) as Hget.
  rewrite <- api_get_config in Hget. apply refreshUser_run in Hget.
  eexists. split.
  - unfold handleDeleteAvatar, page_finally. run.
    unfold api_delete. fold w. change (api backend _ w) with
      (api backend (delete_config "/users/me/avatar") w).
    rewrite Hdel. cbn. fold sent. fold w1. rewrite Hget. cbn. reflexivity.
  - cbn. split; [unfold deleting_screen; by rewrite <- !app_assoc|].
    rewrite lookup_delete_ne by done. by rewrite !lookup_delete_eq.
Qed.


End PageFacts.

(** ** The further properties at concrete inputs *)

Lemma refresh_call_posts_stored_token_witness :
  api Examples.locked Examples.get_podcasts Examples.signed_in =
    Some (MoreExamples.refused, MoreExamples.after_refusal) /\
  exists new,
    events MoreExamples.after_refusal = events Examples.signed_in ++ new /\
    forall c, c ∈ raw_requests new ->
      exists rt,
        localStorage Examples.signed_in !! "refresh_token" = Some rt /\
        rt ≠ "" /\
        method c = "post" /\
        baseURL c = None /\
        url c = "/api/v1/auth/refresh" /\
        data c = Some (JObj [("refresh_token", JStr rt)]) /\
        _retry c = false.
Proof.
  split; [vm_compute; reflexivity|].
  apply (refresh_call_posts_stored_token Examples.locked Examples.get_podcasts
           Examples.signed_in MoreExamples.refused).
  vm_compute; reflexivity.
Defined.

Lemma other_keys_untouched_witness :
  (api Examples.locked Examples.get_podcasts MoreExamples.themed =
     Some (MoreExamples.refused, MoreExamples.after_refusal_themed) /\
   "theme" ≠ "access_token" /\
   "theme" ≠ "refresh_token") /\
  localStorage MoreExamples.after_refusal_themed !! "theme" =
    localStorage MoreExamples.themed !! "theme".
Proof.
  split; [split; [vm_compute; reflexivity|split; discriminate]|].
  apply (other_keys_untouched Examples.locked Examples.get_podcasts MoreExamples.themed
           MoreExamples.refused);
    [vm_compute; reflexivity|discriminate|discriminate].
Defined.

Lemma session_pair_changes_together_witness :
  let w := Examples.signed_in in
  let w' := Examples.after_resend in
  let sent := prepare (localStorage w) Examples.get_podcasts in
  api Examples.rotating Examples.get_podcasts w =
    Some (Fulfilled Examples.podcast_list, w') /\
  exists new rt ok a r,
    events w' = events w ++ new /\
    localStorage w !! "refresh_token" = Some rt /\
    settle (refresh_request rt)
      (Examples.rotating (events (first_failed sent w)) (refresh_request rt)) =
      Fulfilled ok /\
    read_tokens (response_data ok) = inr (a, r) /\
    localStorage w' =
      <["refresh_token" := ToString r]>
        (<["access_token" := ToString a]> (localStorage w)) /\
    localStorage w' !! "access_token" = Some (ToString a) /\
    localStorage w' !! "refresh_token" = Some (ToString r) /\
    href w' = href w /\
    navigations new = [] /\
    raw_requests new = [refresh_request rt].
Proof.
  split; [vm_compute; reflexivity|].
  destruct (session_pair_changes_together Examples.rotating Examples.get_podcasts
              Examples.signed_in (Fulfilled Examples.podcast_list)
              Examples.after_resend)
    as (new & Hev & [Hsame|[Hout|Hnew]]).
  - vm_compute; reflexivity.
  - destruct Hsame as (Hst & _). exfalso.
    apply (f_equal (lookup "access_token")) in Hst. vm_compute in Hst. discriminate Hst.
  - destruct Hout as (Ha & _). exfalso. vm_compute in Ha. discriminate Ha.
  - destruct Hnew as (rt & ok & a & r & Hnew). by exists new, rt, ok, a, r.
Defined.

Lemma resend_repeats_the_request_witness :
  let w := Examples.signed_in in
  let first := prepare (localStorage w) Examples.get_podcasts in
  api Examples.refusing Examples.get_podcasts w =
    Some (MoreExamples.refused_again, Examples.after_resend) /\
  exists new again rt ok a r,
    events Examples.after_resend = events w ++ new /\
    api_requests new = [first; again] /\
    localStorage w !! "refresh_token" = Some rt /\
    settle (refresh_request rt)
      (Examples.refusing (events (first_failed first w)) (refresh_request rt)) =
      Fulfilled ok /\
    read_tokens (response_data ok) = inr (a, r) /\
    headers again !! "Authorization" = Some ("Bearer " +:+ ToString a) /\
    method again = method first /\
    baseURL again = baseURL first /\
    url again = url first /\
    data again = data first /\
    _retry again = true /\
    forall name, name ≠ "Authorization" ->
      headers again !! name = headers first !! name.
Proof.
  split; [vm_compute; reflexivity|].
  destruct (resend_repeats_the_request Examples.refusing Examples.get_podcasts
              Examples.signed_in MoreExamples.refused_again Examples.after_resend)
    as (new & Hev & [Hone|Htwo]).
  - vm_compute; reflexivity.
  - exfalso. cbn in Hev. rewrite <- Hev in Hone. vm_compute in Hone. discriminate Hone.
  - destruct Htwo as (again & rt & ok & a & r & Htwo). by exists new, again, rt, ok, a, r.
Defined.


Lemma missing_token_members_are_stored_as_undefined_witness :
  let sent := Examples.first_send in
  (_retry Examples.get_podcasts = false /\
   MoreExamples.incomplete (events Examples.signed_in) sent = Replied Examples.unauthorized /\
   status Examples.unauthorized = 401%Z /\
   localStorage Examples.signed_in !! "refresh_token" = Some "r1" /\
   "r1" ≠ "" /\
   MoreExamples.incomplete (events (first_failed sent Examples.signed_in))
     (refresh_request "r1") = Replied MoreExamples.incomplete_reply /\
   validateStatus (status MoreExamples.incomplete_reply) = true) /\
  exists o w' again,
    api MoreExamples.incomplete Examples.get_podcasts Examples.signed_in = Some (o, w') /\
    localStorage w' !! "access_token" = Some "undefined" /\
    localStorage w' !! "refresh_token" = Some "undefined" /\
    events w' = events Examples.signed_in ++
                  [EvRequest Api sent; EvRetryMarked (with_retry true sent);
                   EvRequest Raw (refresh_request "r1"); EvRequest Api again] /\
    headers again !! "Authorization" = Some "Bearer undefined".
Proof.
  split; [repeat split; try reflexivity; discriminate|].
  apply (missing_token_members_are_stored_as_undefined MoreExamples.incomplete
           Examples.get_podcasts Examples.signed_in Examples.unauthorized "r1"
           MoreExamples.incomplete_reply
           [("data", JObj [("token_type", JStr "bearer")])]
           [("token_type", JStr "bearer")]);
    try reflexivity; discriminate.
Defined.

Lemma refreshed_token_serves_next_request_witness :
  let sent := Examples.first_send in
  (_retry Examples.get_podcasts = false /\
   Examples.rotating (events Examples.signed_in) sent = Replied Examples.unauthorized /\
   status Examples.unauthorized = 401%Z /\
   localStorage Examples.signed_in !! "refresh_token" = Some "r1" /\
   "r1" ≠ "" /\
   Examples.rotating (events (first_failed sent Examples.signed_in)) (refresh_request "r1")
     = Replied Examples.fresh_pair /\
   validateStatus (status Examples.fresh_pair) = true /\
   read_tokens (response_data Examples.fresh_pair) = inr (Some (JStr "a2"), Some (JStr "r2")) /\
   ToString (Some (JStr "a2")) ≠ "") /\
  exists o w',
    api Examples.rotating Examples.get_podcasts Examples.signed_in = Some (o, w') /\
    exists o2 w2 sent2 rest,
      api Examples.rotating (get_config "/articles/") w' = Some (o2, w2) /\
      events w2 = events w' ++ EvRequest Api sent2 :: rest /\
      headers sent2 !! "Authorization" = Some ("Bearer " +:+ "a2").
Proof.
  split; [repeat split; try reflexivity; discriminate|].
  apply (refreshed_token_serves_next_request Examples.rotating Examples.get_podcasts
           Examples.signed_in Examples.unauthorized "r1" Examples.fresh_pair
           (Some (JStr "a2")) (Some (JStr "r2")) (get_config "/articles/"));
    try reflexivity; discriminate.
Defined.

Lemma failed_profile_fetch_logs_out_witness :
  let sent := MoreExamples.profile_fetch in
  let e := MoreExamples.profile_failure in
  (settle sent (Examples.failing (events Examples.signed_in) sent) = Rejected (AxiosErr e) /\
   is_401 e = false) /\
  exists w1,
    refreshUser Examples.failing Examples.signed_in = Some (Fulfilled tt, w1) /\
    localStorage w1 !! "access_token" = None /\
    localStorage w1 !! "refresh_token" = None /\
    user w1 = Some JNull /\
    href w1 = href Examples.signed_in /\
    events w1 = events Examples.signed_in ++
                  [EvRequest Api sent; EvConsoleError (AxiosErr e); EvSetUser (Some JNull)].
Proof.
  split; [split; reflexivity|].
  apply (failed_profile_fetch_logs_out Examples.failing Examples.signed_in
           MoreExamples.profile_failure); reflexivity.
Defined.

Lemma profile_fetch_publishes_data_member_witness :
  let sent := MoreExamples.profile_fetch in
  (Examples.welcoming (events Examples.signed_in) sent = Replied Examples.podcast_list /\
   validateStatus (status Examples.podcast_list) = true) /\
  exists w1,
    refreshUser Examples.welcoming Examples.signed_in = Some (Fulfilled tt, w1) /\
    match property (Some (response_data Examples.podcast_list)) "data" with
    | inr profile =>
        user w1 = profile /\
        localStorage w1 = localStorage Examples.signed_in /\
        events w1 = events Examples.signed_in ++ [EvRequest Api sent; EvSetUser profile]
    | inl reason =>
        user w1 = Some JNull /\
        localStorage w1 !! "access_token" = None /\
        localStorage w1 !! "refresh_token" = None /\
        events w1 = events Examples.signed_in ++
                      [EvRequest Api sent; EvConsoleError reason; EvSetUser (Some JNull)]
    end.
Proof.
  split; [split; reflexivity|].
  apply (profile_fetch_publishes_data_member Examples.welcoming Examples.signed_in
           Examples.podcast_list); reflexivity.
Defined.


Lemma login_does_not_survive_failed_fetch_witness :
  let ws := store_tokens "a9" "r9" Examples.signed_out in
  let sent := prepare (localStorage ws) (get_config "/users/me") in
  let e := {| config := sent; response := Some Examples.server_error |} in
  (settle sent (Examples.failing (events Examples.signed_out) sent) = Rejected (AxiosErr e) /\
   is_401 e = false) /\
  exists w1,
    login Examples.failing "a9" "r9" Examples.signed_out = Some (Fulfilled tt, w1) /\
    localStorage w1 !! "access_token" = None /\
    localStorage w1 !! "refresh_token" = None /\
    user w1 = Some JNull /\
    href w1 = href Examples.signed_out.
Proof.
  split; [split; reflexivity|].
  apply (login_does_not_survive_failed_fetch Examples.failing "a9" "r9"
           Examples.signed_out
           {| config := prepare (localStorage (store_tokens "a9" "r9" Examples.signed_out))
                          (get_config "/users/me");
              response := Some Examples.server_error |}); reflexivity.
Defined.

Lemma toggleTopic_keeps_NoDup_witness :
  NoDup [4; 7]%Z /\ NoDup (toggleTopic free [] [4; 7]%Z 9%Z).
Proof.
  assert (H : NoDup [4; 7]%Z) by (apply (bool_decide_unpack _); vm_compute; exact I).
  split; [exact H|]. apply (toggleTopic_keeps_NoDup free [] [4; 7]%Z 9%Z H).
Defined.

Lemma toggleTopic_select_then_deselect_witness :
  ((9%Z ∉ [4; 7]%Z) /\ length [4; 7]%Z < maxTopics free []) /\
  toggleTopic free [] (toggleTopic free [] [4; 7]%Z 9%Z) 9%Z = [4; 7]%Z.
Proof.
  assert (H : 9%Z ∉ [4; 7]%Z) by (apply (bool_decide_unpack _); vm_compute; exact I).
  assert (H' : length [4; 7]%Z < maxTopics free []) by (cbn; lia).
  split; [by split|]. apply (toggleTopic_select_then_deselect free [] [4; 7]%Z 9%Z H H').
Defined.

Lemma toggleTopic_deselect_then_select_witness :
  let again := toggleTopic free [] (toggleTopic free [] [4; 7; 9]%Z 4%Z) 4%Z in
  (4%Z ∈ [4; 7; 9]%Z /\ NoDup [4; 7; 9]%Z /\
   length [4; 7; 9]%Z <= maxTopics free []) /\
  again = [7; 9; 4]%Z /\ again ≡ₚ [4; 7; 9]%Z.
Proof.
  assert (H : NoDup [4; 7; 9]%Z) by (apply (bool_decide_unpack _); vm_compute; exact I).
  assert (H' : 4%Z ∈ [4; 7; 9]%Z) by (apply (bool_decide_unpack _); vm_compute; exact I).
  assert (H'' : length [4; 7; 9]%Z <= maxTopics free []) by (cbn; lia).
  split; [by repeat split|].
  destruct (toggleTopic_deselect_then_select free [] [4; 7; 9]%Z 4%Z H')
    as (_ & Hkept & _).
  exact (Hkept H H'').
Defined.

(** Five topics chosen on the paid plan, then the free plan: deselecting the
    first and selecting it again leaves four, without it. *)
Example toggleTopic_past_the_limit_loses_the_topic :
  toggleTopic free [] (toggleTopic free [] [1; 2; 3; 4; 5]%Z 1%Z) 1%Z = [2; 3; 4; 5]%Z.
Proof. reflexivity. Qed.


Lemma avatar_toast_survives_failed_profile_fetch_witness :
  let p := MoreExamples.profile_page in
  let w := browser p in
  let sent := MoreExamples.avatar_delete in
  let w1 := emit_in (EvRequest Api sent) w in
  let fetch := prepare (localStorage w1) (get_config "/users/me") in
  let e := {| config := fetch; response := Some Examples.server_error |} in
  (MoreExamples.deleting_only (events w) sent = Replied MoreExamples.avatar_deleted /\
   validateStatus (status MoreExamples.avatar_deleted) = true /\
   settle fetch (MoreExamples.deleting_only (events w1) fetch) = Rejected (AxiosErr e) /\
   is_401 e = false) /\
  exists p',
    handleDeleteAvatar MoreExamples.deleting_only p = Some (Fulfilled tt, p') /\
    screen p' = deleting_screen (screen p)
                  (UiToastSuccess (JStr "Avatar deleted successfully!")) /\
    localStorage (browser p') !! "access_token" = None /\
    localStorage (browser p') !! "refresh_token" = None /\
    user (browser p') = Some JNull.
Proof.
  split; [repeat split; reflexivity|].
  apply (avatar_toast_survives_failed_profile_fetch MoreExamples.deleting_only
           MoreExamples.profile_page MoreExamples.avatar_deleted
           {| config := prepare (localStorage
                                   (emit_in (EvRequest Api MoreExamples.avatar_delete)
                                      Examples.signed_in))
                          (get_config "/users/me");
              response := Some Examples.server_error |}); reflexivity.
Defined.
